(** * agential: Self-Refine helpers and agent tools

    A shallow embedding of [agential/cog/functional/self_refine.py] and
    [agential/utils/agent_tools.py].

    Python [str] values are modelled by [string], read as sequences of the
    code points U+0000..U+00FF (one [ascii] per code point).  On that range
    [str.lower], [str.strip], [str.split], [str.join], [str.startswith] and
    the [in] operator are written out below as the interpreter computes
    them.  Everything outside the two source files (the [exec] builtin, the
    process environment, the HTTP client, the search wrapper, the prompt
    template engine and the chat model) is a parameter of the functions
    that use it. *)

From Stdlib Require Import ZArith Ascii String List Lia DecimalString.
From stdpp Require Import base option list strings gmap.

Local Open Scope N_scope.

(** ** Python string primitives *)

Module PyStr.

Definition ord (c : ascii) : N := N_of_ascii c.
Definition chr (n : N) : ascii := ascii_of_N n.

(** Code points with a distinct lowercase mapping: A-Z, and in the upper
    half U+00C0..U+00DE except the multiplication sign U+00D7. *)
Definition is_upper (c : ascii) : bool :=
  let n := ord c in
  ((65 <=? n) && (n <=? 90)) ||
  ((192 <=? n) && (n <=? 222) && negb (n =? 215)).

Definition lower_char (c : ascii) : ascii :=
  if is_upper c then chr (ord c + 32) else c.

(** [s.lower()] *)
Fixpoint lower (s : string) : string :=
  match s with
  | EmptyString => EmptyString
  | String c s' => String (lower_char c) (lower s')
  end.

(** [s.startswith(p)] *)
Fixpoint startswith (p s : string) : bool :=
  match p, s with
  | EmptyString, _ => true
  | String _ _, EmptyString => false
  | String a p', String b s' => Ascii.eqb a b && startswith p' s'
  end.

(** [sub in s]: is there an offset of [s] at which [sub] starts. *)
Fixpoint contains (sub s : string) : bool :=
  startswith sub s ||
  match s with
  | EmptyString => false
  | String _ s' => contains sub s'
  end.

(** Characters for which [str.isspace] holds: U+0009..U+000D,
    U+001C..U+0020, U+0085 and U+00A0. *)
Definition is_space (c : ascii) : bool :=
  let n := ord c in
  ((9 <=? n) && (n <=? 13)) || ((28 <=? n) && (n <=? 32)) ||
  (n =? 133) || (n =? 160).

(** [s.lstrip()] *)
Fixpoint lstrip (s : string) : string :=
  match s with
  | EmptyString => EmptyString
  | String c s' => if is_space c then lstrip s' else s
  end.

(** [s.rstrip()]: a character is kept when it is not white space or when
    something is kept after it. *)
Fixpoint rstrip (s : string) : string :=
  match s with
  | EmptyString => EmptyString
  | String c s' =>
      match rstrip s' with
      | EmptyString => if is_space c then EmptyString else String c EmptyString
      | r => String c r
      end
  end.

(** [s.strip()] *)
Definition strip (s : string) : string := rstrip (lstrip s).

(** [s.split(sep)] for a one-character separator: empty pieces are kept
    and the empty string gives one empty piece. *)
Fixpoint split (sep : ascii) (s : string) : list string :=
  match s with
  | EmptyString => [EmptyString]
  | String c s' =>
      if Ascii.eqb c sep then EmptyString :: split sep s'
      else match split sep s' with
           | [] => [String c EmptyString]
           | piece :: rest => String c piece :: rest
           end
  end.

(** [sep.join(pieces)] *)
Fixpoint join (sep : string) (pieces : list string) : string :=
  match pieces with
  | [] => EmptyString
  | [x] => x
  | x :: rest => x +:+ sep +:+ join sep rest
  end.

(** [str(n)] for an [int]. *)
Definition str_of_int (z : Z) : string := NilZero.string_of_int (Z.to_int z).

(** The specification side of [in]: [sub] occurs in [s]. *)
Definition occurs (sub s : string) : Prop :=
  exists pre suf, s = pre +:+ sub +:+ suf.

(** [c] is the character [m] or its upper-case form. *)
Definition cased_as (c m : ascii) : Prop :=
  c = m \/ (is_upper c = true /\ ord c + 32 = ord m).

(** [v] is [m] up to the case of its letters. *)
Fixpoint casing_variant (v m : string) : Prop :=
  match v, m with
  | EmptyString, EmptyString => True
  | String c v', String d m' => cased_as c d /\ casing_variant v' m'
  | _, _ => False
  end.

Fixpoint all_space (s : string) : bool :=
  match s with
  | EmptyString => true
  | String c s' => is_space c && all_space s'
  end.

Definition head_char (s : string) : option ascii :=
  match s with
  | EmptyString => None
  | String c _ => Some c
  end.

Fixpoint last_char (s : string) : option ascii :=
  match s with
  | EmptyString => None
  | String c EmptyString => Some c
  | String _ s' => last_char s'
  end.

(** No white space at either end. *)
Definition trimmed (s : string) : Prop :=
  (forall c, head_char s = Some c -> is_space c = false) /\
  (forall c, last_char s = Some c -> is_space c = false).

End PyStr.

(** ** self_refine.py: the halting test *)

Definition acceptance_marker : string := "it is correct".

Definition _is_halted (feedback : string) : bool :=
  PyStr.contains acceptance_marker (PyStr.lower feedback).

(** ** Exceptions, outcomes and the log of outbound calls *)

(** An exception object raised by code outside the two source files, seen
    through the two observations the sources make of it:
    [isinstance(e, Exception)] and [str(e)]. *)
Record raised := Raised { exc_is_Exception : bool; exc_str : string }.

Inductive py_exception :=
  | KeyError (key : string)
  | IndexError
  | TypeError
  | ValueError
  | AssertionError
  | External (e : raised).

Inductive outcome (A : Type) :=
  | Return (a : A)
  | Raise (e : py_exception).
Arguments Return {A} a.
Arguments Raise {A} e.

(** Every interaction with the world outside the interpreter. *)
Inductive event :=
  | EvExec (code : string)
  | EvHttpGet (url : string) (params : list (string * string))
  | EvSearch (google_api_key google_cse_id query : string) (num_results : Z)
  | EvLlm (prompt : string).

(** A computation reads the log of the calls made so far, returns or
    raises, and leaves the log extended by the calls it made. *)
Definition M (A : Type) : Type := list event -> outcome A * list event.

Definition ret {A} (a : A) : M A := fun log => (Return a, log).
Definition raise {A} (e : py_exception) : M A := fun log => (Raise e, log).
Definition lift {A} (o : outcome A) : M A := fun log => (o, log).

Definition bind {A B} (m : M A) (k : A -> M B) : M B :=
  fun log =>
    match m log with
    | (Return a, log') => k a log'
    | (Raise e, log') => (Raise e, log')
    end.

Notation "'let*' x ':=' c 'in' k" := (bind c (fun x => k))
  (at level 10, x name, c at level 100, k at level 200, only parsing).

(** One outbound call: the callee answers from the calls made before it,
    and the call is logged whether it returns or raises. *)
Definition perform {A} (ev : event) (answer : list event -> outcome A) : M A :=
  fun log => (answer log, log ++ [ev]).

(** [for x in xs: s = body(s, x)] *)
Fixpoint for_each {A S} (xs : list A) (body : S -> A -> M S) (s : S) : M S :=
  match xs with
  | [] => ret s
  | x :: xs' => let* s' := body s x in for_each xs' body s'
  end.

(** [[f(x) for x in xs]] *)
Fixpoint list_comp {A B} (f : A -> M B) (xs : list A) : M (list B) :=
  match xs with
  | [] => ret []
  | x :: xs' => let* y := f x in let* ys := list_comp f xs' in ret (y :: ys)
  end.

Definition result_of {A} (m : M A) (log : list event) : outcome A := fst (m log).

(** ** Insertion-ordered dictionaries with string keys *)

Section Dict.
Context {V : Type}.

Definition dict := list (string * V).

Fixpoint dict_get (d : dict) (k : string) : option V :=
  match d with
  | [] => None
  | (k', v) :: d' => if String.eqb k' k then Some v else dict_get d' k
  end.

(** [d[k]] *)
Definition dict_getitem (d : dict) (k : string) : outcome V :=
  match dict_get d k with
  | Some v => Return v
  | None => Raise (KeyError k)
  end.

(** [d[k] = v]: an existing key keeps its position. *)
Fixpoint dict_set (d : dict) (k : string) (v : V) : dict :=
  match d with
  | [] => [(k, v)]
  | (k', v') :: d' =>
      if String.eqb k' k then (k', v) :: d' else (k', v') :: dict_set d' k v
  end.

Definition dict_keys (d : dict) : list string := map fst d.
Definition dict_items (d : dict) : list (string * V) := d.
End Dict.
Arguments dict V : clear implicits.

(** [xs[-1]] *)
Definition last_item {A} (xs : list A) : outcome A :=
  match last xs with
  | Some x => Return x
  | None => Raise IndexError
  end.

(** [os.environ.get(name)] is [env !! name]; [not value] holds for a
    variable that is unset and for one set to the empty string. *)
Definition truthy (value : option string) : bool :=
  match value with
  | Some (String _ _) => true
  | _ => false
  end.

(** ** self_refine.py: prompt builders and model callers *)

(** What [llm(messages).content] can be: a [str], or a list of content
    parts. *)
Inductive content :=
  | ContentStr (s : string)
  | ContentParts.

Section SelfRefine.
(** [PromptTemplate.from_template(template).format(name=value, ...)] *)
Variable format_template : string -> list (string * string) -> outcome string.
(** The chat model, answering a one-message conversation. *)
Variable llm : list event -> string -> outcome content.
(** The default templates of [agential.cog.prompts.self_refine]. *)
Variable SELF_REFINE_INSTRUCTION_GSM8K : string.
Variable SELF_REFINE_FEEDBACK_INSTRUCTION_GSM8K : string.
Variable SELF_REFINE_REFINE_INSTRUCTION_GSM8K : string.

Definition invoke_llm (prompt : string) : M content :=
  perform (EvLlm prompt) (fun log => llm log prompt).

(** [assert isinstance(out, str)] *)
Definition assert_str (out : content) : M string :=
  match out with
  | ContentStr s => ret s
  | ContentParts => raise AssertionError
  end.

Definition _build_agent_prompt (question examples : string)
    (prompt : option string) : outcome string :=
  let prompt := default SELF_REFINE_INSTRUCTION_GSM8K prompt in
  format_template prompt [("question", question); ("examples", examples)].

Definition _prompt_agent (question examples : string)
    (prompt : option string) : M string :=
  let* prompt := lift (_build_agent_prompt question examples prompt) in
  let* out := invoke_llm prompt in
  let* out := assert_str out in
  ret (PyStr.strip out).

Definition _build_feedback_prompt (examples solution : string)
    (prompt : option string) : outcome string :=
  let prompt := default SELF_REFINE_FEEDBACK_INSTRUCTION_GSM8K prompt in
  format_template prompt [("examples", examples); ("solution", solution)].

Definition _prompt_feedback (examples solution : string)
    (prompt : option string) : M string :=
  let* prompt := lift (_build_feedback_prompt examples solution prompt) in
  let* out := invoke_llm prompt in
  let* out := assert_str out in
  ret (PyStr.strip out).

Definition _build_refine_prompt (examples solution feedback : string)
    (prompt : option string) : outcome string :=
  let prompt := default SELF_REFINE_REFINE_INSTRUCTION_GSM8K prompt in
  format_template prompt
    [("examples", examples); ("solution", solution); ("feedback", feedback)].

Definition _prompt_refine (examples solution feedback : string)
    (prompt : option string) : M string :=
  let* prompt := lift (_build_refine_prompt examples solution feedback prompt) in
  let* out := invoke_llm prompt in
  let* out := assert_str out in
  ret (PyStr.strip out).

(** The body the three callers share once the prompt is built. *)
Definition model_call (built : outcome string) : M string :=
  let* prompt := lift built in
  let* out := invoke_llm prompt in
  let* out := assert_str out in
  ret (PyStr.strip out).

(** Modelled from the spec: the refine loop that drives the three callers
    is not among the sources; this is one pass through its three phases
    (answer, feedback on the answer, refinement from both). *)
Definition three_phases (question examples : string) : M string :=
  let* solution := _prompt_agent question examples None in
  let* feedback := _prompt_feedback examples solution None in
  _prompt_refine examples solution feedback None.
End SelfRefine.


(** ** agent_tools.py *)

(** Values a variable of the executed code can hold, as far as the
    listing observes them: through [format(value)], which is what an
    f-string field without a format spec calls. *)
Inductive py_value :=
  | VInt (z : Z)
  | VBool (b : bool)
  | VNone
  | VStr (s : string)
  | VObject (formatted : outcome string).

(** [sys.int_max_str_digits]: an [int] with more decimal digits than this
    is not converted to text. *)
Definition int_max_str_digits : Z := 4300.

(** The [{value}] field of an f-string. *)
Definition format_value (v : py_value) : outcome string :=
  match v with
  | VInt z =>
      if (Z.abs z <? 10 ^ int_max_str_digits)%Z then Return (PyStr.str_of_int z)
      else Raise ValueError
  | VBool true => Return "True"
  | VBool false => Return "False"
  | VNone => Return "None"
  | VStr s => Return s
  | VObject formatted => formatted
  end.

(** What [exec(code, globals(), local_vars)] does: it fills [local_vars]
    and returns, or it raises. *)
Inductive exec_result :=
  | ExecDone (local_vars : dict py_value)
  | ExecRaised (e : raised).

(** Decoded JSON. *)
#[local] Set Warnings "-register-all".
Inductive json :=
  | JNull
  | JBool (b : bool)
  | JNumber (literal : string)
  | JString (s : string)
  | JArray (elements : list json)
  | JObject (members : dict json).

Definition json_is_str (s : string) (j : json) : bool :=
  match j with
  | JString s' => String.eqb s' s
  | _ => false
  end.

(** [key in value] for a [str] key. *)
Definition py_in (key : string) (value : json) : outcome bool :=
  match value with
  | JObject members =>
      Return (match dict_get members key with Some _ => true | None => false end)
  | JArray elements => Return (existsb (json_is_str key) elements)
  | JString s => Return (PyStr.contains key s)
  | JNull | JBool _ | JNumber _ => Raise TypeError
  end.

(** [value[key]] for a [str] key: only a dict can be indexed by one. *)
Definition py_getitem (value : json) (key : string) : outcome json :=
  match value with
  | JObject members => dict_getitem members key
  | _ => Raise TypeError
  end.

Fixpoint chars (s : string) : list string :=
  match s with
  | EmptyString => []
  | String c s' => String c EmptyString :: chars s'
  end.

(** The items a [for] loop visits. *)
Definition py_iter (value : json) : outcome (list json) :=
  match value with
  | JArray elements => Return elements
  | JObject members => Return (map JString (dict_keys members))
  | JString s => Return (map JString (chars s))
  | JNull | JBool _ | JNumber _ => Raise TypeError
  end.

(** [value + suffix] for a [str] suffix. *)
Definition py_add_str (value : json) (suffix : string) : outcome string :=
  match value with
  | JString s => Return (s +:+ suffix)
  | _ => Raise TypeError
  end.

Record response := Response {
  status_code : Z;
  (** what [response.json()] gives when it is called *)
  response_json : outcome json
}.

Definition newline : string := String (PyStr.chr 10) EmptyString.

Definition wolfram_key_missing : string :=
  "Wolfram Alpha API key not found in environment variables. Use a different tool.".
Definition wolfram_no_results : string :=
  "No results found using Wolfram Alpha API.".
Definition google_key_missing : string :=
  "Google search key(s) not found in environment variables. Use a different tool.".

Section AgentTools.
(** [os.environ] *)
Variable env : gmap string string.
(** The [exec] builtin applied to the module globals and a fresh dict. *)
Variable exec : list event -> string -> exec_result.
(** [requests.get(url, params=params)] *)
Variable requests_get :
  list event -> string -> list (string * string) -> outcome response.
(** [GoogleSearchAPIWrapper(google_api_key=.., google_cse_id=..).results(query, num_results)] *)
Variable google_results :
  list event -> string -> string -> string -> Z -> outcome (list (dict string)).

(** One step of the comprehension below: [var] is kept, with
    [local_vars[var]], when [not var.startswith("__")]. *)
Definition public_entry (local_vars acc : dict py_value) (var : string)
    : M (dict py_value) :=
  if negb (PyStr.startswith "__" var)
  then let* value := lift (dict_getitem local_vars var) in
       ret (dict_set acc var value)
  else ret acc.

(** [{var: local_vars[var] for var in local_vars if not var.startswith("__")}] *)
Definition public_variables (local_vars : dict py_value) : M (dict py_value) :=
  for_each (dict_keys local_vars) (public_entry local_vars) [].

(** [f"{key} = {value}"] *)
Definition render_item (item : string * py_value) : M string :=
  let '(key, value) := item in
  let* text := lift (format_value value) in
  ret (key +:+ " = " +:+ text).

Definition execute_python (input_code : string) : M string :=
  let input_code := PyStr.split ";" input_code in
  let input_code := map PyStr.strip input_code in
  let input_code := PyStr.join newline input_code in
  let* executed :=
    perform (EvExec input_code) (fun log => Return (exec log input_code)) in
  match executed with
  | ExecRaised e =>
      (* except Exception as e: return str(e) *)
      if exc_is_Exception e then ret (exc_str e) else raise (External e)
  | ExecDone local_vars =>
      let* variables_dict := public_variables local_vars in
      let* parts := list_comp render_item (dict_items variables_dict) in
      let result := PyStr.join ", " parts in
      ret result
  end.

Definition wolfram_subpod (output_string : string) (subpod : json) : M string :=
  let* plaintext := lift (py_getitem subpod "plaintext") in
  let* line := lift (py_add_str plaintext newline) in
  ret (output_string +:+ line).

Definition wolfram_pod (output_string : string) (pod : json) : M string :=
  let* title := lift (py_getitem pod "title") in
  if negb (json_is_str "Input interpretation" title) then
    let* title := lift (py_getitem pod "title") in
    let* heading := lift (py_add_str title (":" +:+ newline)) in
    let output_string := output_string +:+ heading in
    let* subpods := lift (py_getitem pod "subpods") in
    let* subpods := lift (py_iter subpods) in
    for_each subpods wolfram_subpod output_string
  else ret output_string.

Definition execute_wolfram (query : string) : M string :=
  let app_id := env !! "WOLFRAM_ALPHA_APP_ID" in
  if negb (truthy app_id) then ret wolfram_key_missing
  else
    let app_id := default EmptyString app_id in
    let base_url := "https://api.wolframalpha.com/v2/query" in
    let params := [("input", query); ("format", "plaintext");
                   ("output", "JSON"); ("appid", app_id)] in
    let* response :=
      perform (EvHttpGet base_url params)
        (fun log => requests_get log base_url params) in
    if (status_code response =? 200)%Z then
      let* result := lift (response_json response) in
      let* found := lift (py_in "queryresult" result) in
      if found then
        let* queryresult := lift (py_getitem result "queryresult") in
        let* pods := lift (py_getitem queryresult "pods") in
        let* pods := lift (py_iter pods) in
        let* output_string := for_each pods wolfram_pod EmptyString in
        ret (PyStr.strip output_string)
      else ret wolfram_no_results
    else ret ("Error occurred: " +:+ PyStr.str_of_int (status_code response)).

Definition search_google (query : string) : M string :=
  let cse_id := env !! "GOOGLE_CSE_ID" in
  let google_key := env !! "GOOGLE_API_KEY" in
  if negb (truthy cse_id) || negb (truthy google_key) then ret google_key_missing
  else
    let cse_id := default EmptyString cse_id in
    let google_key := default EmptyString google_key in
    let* results :=
      perform (EvSearch google_key cse_id query 1)
        (fun log => google_results log google_key cse_id query 1%Z) in
    let* search_result := lift (last_item results) in
    lift (dict_getitem search_result "snippet").
End AgentTools.


(** ** Specification-side names for the tools *)

(** The text [execute_python] hands to [exec]. *)
Definition executed_text (input_code : string) : string :=
  PyStr.join newline (map PyStr.strip (PyStr.split ";" input_code)).

(** The specification side of the listing: the variables shown are the
    entries whose name does not start with two underscores, in order. *)
Definition is_public (name : string) : bool := negb (PyStr.startswith "__" name).

Definition listed (local_vars : dict py_value) : dict py_value :=
  List.filter (fun item => is_public (fst item)) local_vars.

Definition listing (shown : dict py_value) (texts : list string) : string :=
  PyStr.join ", " (zip_with (fun item text => fst item +:+ " = " +:+ text) shown texts).

(** A value is configured when its variable is set to a non-empty string,
    which is what the guards [if not value] let through. *)
Definition configured (env : gmap string string) (name value : string) : Prop :=
  env !! name = Some value /\ value <> EmptyString.

Definition unconfigured (env : gmap string string) (name : string) : Prop :=
  env !! name = None \/ env !! name = Some EmptyString.

(** The request [execute_wolfram] sends. *)
Definition wolfram_url : string := "https://api.wolframalpha.com/v2/query".

Definition wolfram_params (query app_id : string) : list (string * string) :=
  [("input", query); ("format", "plaintext"); ("output", "JSON"); ("appid", app_id)].

(** A computation that makes no outbound call. *)
Definition silent {A} (m : M A) : Prop := forall log, snd (m log) = log.

(** ** A reference [exec] for straight-line integer assignments

    Programs made of lines [name = operand op operand ...] over integer
    literals, names already assigned and the operators [+ - *].  On these
    it binds what the interpreter binds; every other program is declined. *)

Module RefExec.

Inductive token :=
  | TNum (digits : string)
  | TName (name : string)
  | TSym (c : ascii).

Definition is_blank (c : ascii) : bool :=
  let n := PyStr.ord c in (n =? 32) || (n =? 9).
Definition is_digit (c : ascii) : bool :=
  let n := PyStr.ord c in (48 <=? n) && (n <=? 57).
Definition is_name_char (c : ascii) : bool :=
  let n := PyStr.ord c in
  ((65 <=? n) && (n <=? 90)) || ((97 <=? n) && (n <=? 122)) || (n =? 95) ||
  is_digit c.
Definition is_operator (c : ascii) : bool :=
  let n := PyStr.ord c in (n =? 43) || (n =? 45) || (n =? 42) || (n =? 61).

Definition continues (p : ascii -> bool) (s : string) : bool :=
  match s with
  | String d _ => p d
  | EmptyString => false
  end.

Fixpoint lex (s : string) : option (list token) :=
  match s with
  | EmptyString => Some []
  | String c s' =>
      match lex s' with
      | None => None
      | Some ts =>
          if is_blank c then Some ts
          else if is_digit c then
            if continues is_digit s' then
              match ts with
              | TNum ds :: ts' => Some (TNum (String c ds) :: ts')
              | _ => None
              end
            else if continues is_name_char s' then None
            else Some (TNum (String c EmptyString) :: ts)
          else if is_name_char c then
            if continues is_name_char s' then
              match ts with
              | TName n :: ts' => Some (TName (String c n) :: ts')
              | TNum ds :: ts' => Some (TName (String c ds) :: ts')
              | _ => None
              end
            else Some (TName (String c EmptyString) :: ts)
          else if is_operator c then Some (TSym c :: ts)
          else None
      end
  end.

Definition reserved : list string :=
  ["False"; "None"; "True"; "and"; "as"; "assert"; "async"; "await";
   "break"; "class"; "continue"; "def"; "del"; "elif"; "else"; "except";
   "finally"; "for"; "from"; "global"; "if"; "import"; "in"; "is";
   "lambda"; "nonlocal"; "not"; "or"; "pass"; "raise"; "return"; "try";
   "while"; "with"; "yield"; "__debug__"].

Fixpoint digits_value (acc : Z) (ds : string) : Z :=
  match ds with
  | EmptyString => acc
  | String c ds' => digits_value (acc * 10 + (Z.of_N (PyStr.ord c) - 48)) ds'
  end.

(** An operand: a literal without a leading zero and within the digit
    limit, or an [int] variable. *)
Definition operand (ns : dict py_value) (t : token) : option Z :=
  match t with
  | TNum (String c EmptyString) => Some (digits_value 0 (String c EmptyString))
  | TNum (String c ds) =>
      if (PyStr.ord c =? 48) || (4300 <? N.of_nat (String.length (String c ds)))
      then None else Some (digits_value 0 (String c ds))
  | TName n =>
      if existsb (String.eqb n) reserved then None
      else match dict_get ns n with
           | Some (VInt z) => Some z
           | _ => None
           end
  | _ => None
  end.

(** [total] is the sum of the terms already closed, [term] the product
    being built. *)
Fixpoint operations (ns : dict py_value) (total term : Z) (ts : list token)
    : option Z :=
  match ts with
  | [] => Some (total + term)%Z
  | TSym op :: t :: ts' =>
      match operand ns t with
      | None => None
      | Some v =>
          if (PyStr.ord op =? 43) then operations ns (total + term)%Z v ts'
          else if (PyStr.ord op =? 45) then operations ns (total + term)%Z (- v)%Z ts'
          else if (PyStr.ord op =? 42) then operations ns total (term * v)%Z ts'
          else None
      end
  | _ => None
  end.

Definition statement (ns : dict py_value) (line : string)
    : option (dict py_value) :=
  match lex line with
  | Some [] => if continues is_blank line then None else Some ns
  | Some (TName n :: TSym eq :: t :: ts) =>
      if continues is_blank line || negb (PyStr.ord eq =? 61)
         || existsb (String.eqb n) reserved
      then None
      else match operand ns t with
           | None => None
           | Some v =>
               match operations ns 0 v ts with
               | Some z => Some (dict_set ns n (VInt z))
               | None => None
               end
           end
  | _ => None
  end.

Fixpoint statements (ns : dict py_value) (lines : list string)
    : option (dict py_value) :=
  match lines with
  | [] => Some ns
  | line :: lines' =>
      match statement ns line with
      | Some ns' => statements ns' lines'
      | None => None
      end
  end.

Definition declined : raised := Raised true "outside the integer assignment fragment".

Definition exec (_ : list event) (code : string) : exec_result :=
  match statements [] (PyStr.split (PyStr.chr 10) code) with
  | Some ns => ExecDone ns
  | None => ExecRaised declined
  end.

End RefExec.

(** ** Worlds used in the examples *)

(** [exec] of [raise SystemExit]: the exception is not an [Exception]. *)
Definition exec_with_exit (log : list event) (code : string) : exec_result :=
  if String.eqb code "raise SystemExit" then ExecRaised (Raised false EmptyString)
  else RefExec.exec log code.

Definition env_wolfram : gmap string string := {[ "WOLFRAM_ALPHA_APP_ID" := "DEMO" ]}.

(** The reply to a query the engine does not understand: status 200, a
    [queryresult] without [pods]. *)
Definition http_no_pods (_ : list event) (_ : string) (_ : list (string * string))
    : outcome response :=
  Return (Response 200
    (Return (JObject [("queryresult",
       JObject [("success", JBool false); ("numpods", JNumber "0")])]))).

Definition http_answer (_ : list event) (_ : string) (_ : list (string * string))
    : outcome response :=
  Return (Response 200
    (Return (JObject [("queryresult", JObject [("pods", JArray [
       JObject [("title", JString "Input interpretation");
                ("subpods", JArray [JObject [("plaintext", JString "2 + 2")]])];
       JObject [("title", JString "Result");
                ("subpods", JArray [JObject [("plaintext", JString "4")]])]])])]))).

Definition http_unavailable (_ : list event) (_ : string) (_ : list (string * string))
    : outcome response :=
  Return (Response 503 (Raise (External (Raised true "Expecting value")))).

Definition env_google : gmap string string :=
  {[ "GOOGLE_CSE_ID" := "cx"; "GOOGLE_API_KEY" := "key" ]}.

Definition env_google_empty_id : gmap string string :=
  {[ "GOOGLE_CSE_ID" := EmptyString; "GOOGLE_API_KEY" := "key" ]}.

(** What the wrapper returns when the search has no hit. *)
Definition search_no_hit (_ : list event) (_ _ _ : string) (_ : Z)
    : outcome (list (dict string)) :=
  Return [[("Result", "No good Google Search Result was found")]].

Definition search_two_hits (_ : list event) (_ _ _ : string) (_ : Z)
    : outcome (list (dict string)) :=
  Return [[("title", "A"); ("link", "http://a"); ("snippet", "first")];
          [("title", "B"); ("link", "http://b"); ("snippet", "second")]].

Definition template_as_is (template : string) (_ : list (string * string))
    : outcome string := Return template.

Definition llm_padded (_ : list event) (_ : string) : outcome content :=
  Return (ContentStr "  42 ").


(** ** Specification-side names for the further properties *)

(** [c] is one of the characters of [s]. *)
Fixpoint mem_char (c : ascii) (s : string) : bool :=
  match s with
  | EmptyString => false
  | String d s' => Ascii.eqb d c || mem_char c s'
  end.

(** What a model caller does, case by case, once its builder has run:
    a builder error is passed on before any call; otherwise the model is
    called once, and its error, a non-text content or its stripped text
    is the outcome. *)
Definition caller_outcome (llm : list event -> string -> outcome content)
    (built : outcome string) (log : list event) : outcome string * list event :=
  match built with
  | Raise e => (Raise e, log)
  | Return p =>
      (match llm log p with
       | Raise e => Raise e
       | Return ContentParts => Raise AssertionError
       | Return (ContentStr r) => Return (PyStr.strip r)
       end, log ++ [EvLlm p])
  end.

(** A pod as the loop of [execute_wolfram] reads it: its title and the
    plaintexts of its subpods. *)
Definition pod : Type := string * list string.

Fixpoint text_lines (plaintexts : list string) : string :=
  match plaintexts with
  | [] => EmptyString
  | plaintext :: rest => plaintext +:+ newline +:+ text_lines rest
  end.

Definition pod_section (p : pod) : string :=
  if String.eqb (fst p) "Input interpretation" then EmptyString
  else fst p +:+ ":" +:+ newline +:+ text_lines (snd p).

Fixpoint pod_sections (pods : list pod) : string :=
  match pods with
  | [] => EmptyString
  | p :: rest => pod_section p +:+ pod_sections rest
  end.

(** [j] is a JSON object with a text [title]; unless the title is
    "Input interpretation", its [subpods] is a list of objects with text
    [plaintext]s. *)
Definition is_pod (j : json) (p : pod) : Prop :=
  py_getitem j "title" = Return (JString (fst p)) /\
  (fst p <> "Input interpretation" ->
   exists subpods,
     py_getitem j "subpods" = Return (JArray subpods) /\
     Forall2 (fun subpod plaintext =>
                py_getitem subpod "plaintext" = Return (JString plaintext))
       subpods (snd p)).

(** What [execute_wolfram] does with the body of a reply of status 200. *)
Definition wolfram_read (body : outcome json) : M string :=
  let* result := lift body in
  let* found := lift (py_in "queryresult" result) in
  if found then
    let* queryresult := lift (py_getitem result "queryresult") in
    let* pods := lift (py_getitem queryresult "pods") in
    let* pods := lift (py_iter pods) in
    let* output_string := for_each pods wolfram_pod EmptyString in
    ret (PyStr.strip output_string)
  else ret wolfram_no_results.

(** Further worlds for the examples. *)
Definition llm_blank (_ : list event) (_ : string) : outcome content :=
  Return (ContentStr "   ").


Definition http_no_queryresult (_ : list event) (_ : string)
    (_ : list (string * string)) : outcome response :=
  Return (Response 200 (Return (JObject [("error", JString "Invalid appid")]))).

Definition search_nothing (_ : list event) (_ _ _ : string) (_ : Z)
    : outcome (list (dict string)) := Return [].

(** * Facts about the string primitives *)

Module PyStrFacts.
Import PyStr.

Lemma app_nil_l (s : string) : EmptyString +:+ s = s.
Proof. reflexivity. Qed.

Lemma app_cons (c : ascii) (s t : string) :
  String c s +:+ t = String c (s +:+ t).
Proof. reflexivity. Qed.

Lemma app_nil_r (s : string) : s +:+ EmptyString = s.
Proof. induction s as [|c s IH]; [reflexivity|]. by rewrite app_cons, IH. Qed.

Lemma app_assoc (s t u : string) : (s +:+ t) +:+ u = s +:+ t +:+ u.
Proof.
  induction s as [|c s IH]; [reflexivity|].
  by rewrite !app_cons, IH.
Qed.

Lemma length_app (s t : string) :
  String.length (s +:+ t) = (String.length s + String.length t)%nat.
Proof.
  induction s as [|c s IH]; [reflexivity|].
  rewrite app_cons. simpl. by rewrite IH.
Qed.

Lemma lower_app (s t : string) : lower (s +:+ t) = lower s +:+ lower t.
Proof.
  induction s as [|c s IH]; [reflexivity|].
  rewrite app_cons. simpl. by rewrite IH, app_cons.
Qed.

(** [lower] works character by character, so a split of the lowered text
    comes from a split of the text. *)
Lemma lower_app_inv (f a b : string) :
  lower f = a +:+ b ->
  exists x y, f = x +:+ y /\ lower x = a /\ lower y = b.
Proof.
  revert f. induction a as [|c a IH]; intros f H.
  - exists EmptyString, f. by rewrite !app_nil_l in *.
  - rewrite app_cons in H. destruct f as [|d f]; [discriminate|].
    simpl in H. injection H as Hc Hf.
    destruct (IH f Hf) as (x & y & -> & <- & <-).
    exists (String d x), y. rewrite app_cons. simpl. by rewrite Hc.
Qed.

Lemma is_upper_bound (c : ascii) : is_upper c = true -> ord c + 32 < 256.
Proof.
  unfold is_upper. cbv zeta.
  rewrite orb_true_iff, !andb_true_iff, !N.leb_le. lia.
Qed.

Lemma lower_char_cased (c m : ascii) :
  lower_char m = m -> (lower_char c = m <-> cased_as c m).
Proof.
  intros Hm. unfold cased_as, lower_char. destruct (is_upper c) eqn:Hc.
  - split.
    + intros <-. right. split; [done|]. unfold ord, chr.
      rewrite N_ascii_embedding; [done|]. by apply is_upper_bound.
    + intros [->|[_ H]].
      * unfold lower_char in Hm. by rewrite Hc in Hm.
      * unfold chr. rewrite H. apply ascii_N_embedding.
  - split; [by left|]. by intros [?|[? _]].
Qed.

(** The texts that lower to an already lowered [m] are its casing
    variants. *)
Lemma lower_casing_variant (v m : string) :
  lower m = m -> (lower v = m <-> casing_variant v m).
Proof.
  revert m. induction v as [|c v IH]; intros [|d m] Hm; simpl; try done.
  simpl in Hm. injection Hm as Hd Hm.
  rewrite <- (lower_char_cased c d Hd), <- (IH m Hm).
  split; [by intros [= -> ->] | by intros [-> ->]].
Qed.

Lemma startswith_spec (p s : string) :
  startswith p s = true <-> exists suf, s = p +:+ suf.
Proof.
  revert s. induction p as [|a p IH]; intros s.
  - split; [intros _; by exists s | by destruct s].
  - destruct s as [|b s]; simpl.
    + split; [discriminate | intros [suf H]; by rewrite app_cons in H].
    + rewrite andb_true_iff, Ascii.eqb_eq, IH. split.
      * intros [-> [suf ->]]. by exists suf.
      * intros [suf H]. rewrite app_cons in H. injection H as -> ->. eauto.
Qed.

Lemma contains_cons (sub : string) (c : ascii) (s : string) :
  contains sub (String c s) = startswith sub (String c s) || contains sub s.
Proof. reflexivity. Qed.

(** The scan of [in] finds exactly the occurrences. *)
Lemma contains_spec (sub s : string) :
  contains sub s = true <-> occurs sub s.
Proof.
  split.
  - induction s as [|c s IH].
    + simpl. rewrite orb_false_r. intros [suf ->]%startswith_spec.
      by exists EmptyString, suf.
    + rewrite contains_cons, orb_true_iff. intros [H|H].
      * apply startswith_spec in H as [suf ->]. by exists EmptyString, suf.
      * destruct (IH H) as (pre & suf & ->). by exists (String c pre), suf.
  - intros (pre & suf & ->). induction pre as [|c pre IH].
    + rewrite app_nil_l.
      assert (startswith sub (sub +:+ suf) = true) as Hs
        by (apply startswith_spec; eauto).
      destruct (sub +:+ suf); simpl; by rewrite Hs.
    + rewrite app_cons, contains_cons, IH. apply orb_true_r.
Qed.

Lemma contains_false (sub s : string) :
  contains sub s = false <-> ~ occurs sub s.
Proof.
  rewrite <- contains_spec. by destruct (contains sub s).
Qed.

Lemma occurs_app_r (sub s t : string) : occurs sub s -> occurs sub (s +:+ t).
Proof.
  intros (pre & suf & ->). exists pre, (suf +:+ t). by rewrite !app_assoc.
Qed.

Lemma occurs_app_l (sub s t : string) : occurs sub s -> occurs sub (t +:+ s).
Proof.
  intros (pre & suf & ->). exists (t +:+ pre), suf. by rewrite !app_assoc.
Qed.

Lemma split_cons (sep : ascii) (s : string) :
  exists piece rest, split sep s = piece :: rest.
Proof.
  induction s as [|c s (piece & rest & IH)]; simpl; [eauto|].
  destruct (Ascii.eqb c sep); [eauto|]. rewrite IH. eauto.
Qed.

(** Joining the pieces with the separator gives the text back. *)
Lemma join_split (sep : ascii) (s : string) :
  join (String sep EmptyString) (split sep s) = s.
Proof.
  induction s as [|c s IH]; [reflexivity|]. simpl.
  destruct (split_cons sep s) as (piece & rest & Hs). rewrite Hs in *.
  destruct (Ascii.eqb_spec c sep) as [->|_].
  - change (join (String sep EmptyString) (EmptyString :: piece :: rest))
      with (EmptyString +:+ String sep EmptyString
            +:+ join (String sep EmptyString) (piece :: rest)).
    by rewrite IH.
  - destruct rest as [|next rest]; simpl in *; [by rewrite IH|].
    by rewrite app_cons, IH.
Qed.

Example lower_mixed : lower "It Is CORRECT, 42!" = "it is correct, 42!".
Proof. reflexivity. Qed.

Example strip_both_ends :
  strip ("  a b " +:+ String (chr 9) (String (chr 10) EmptyString)) = "a b".
Proof. reflexivity. Qed.

Example split_keeps_empty_pieces :
  split ";" "a = 1;; b = 2 ;" = ["a = 1"; EmptyString; " b = 2 "; EmptyString].
Proof. reflexivity. Qed.

Example join_pieces : join ", " ["a = 1"; "b = 2"; "c = 3"] = "a = 1, b = 2, c = 3".
Proof. reflexivity. Qed.

Example str_of_int_values :
  str_of_int 100 = "100" /\ str_of_int 0 = "0" /\ str_of_int (-7) = "-7".
Proof. repeat split. Qed.

End PyStrFacts.

(** * The halting test *)

Section Halting.
Import PyStr PyStrFacts.

Lemma is_halted_occurs (f : string) :
  _is_halted f = true <-> occurs acceptance_marker (lower f).
Proof. apply contains_spec. Qed.

(** C1. [_is_halted] is true exactly when the lowered feedback has
    ["it is correct"] as a substring. So it is true on any text with a
    casing variant of the marker in it (["It Is Correct"],
    ["IT IS CORRECT"], ...) and false on any text with none, such as
    ["the answer is correctish"]. *)
Theorem is_halted_iff_marker :
  (forall f, _is_halted f = true <->
             exists pre suf, lower f = pre +:+ "it is correct" +:+ suf) /\
  (forall pre v suf, casing_variant v "it is correct" ->
                     _is_halted (pre +:+ v +:+ suf) = true) /\
  _is_halted "It Is Correct" = true /\
  _is_halted "it is correct" = true /\
  _is_halted "IT IS CORRECT" = true /\
  (forall f, (forall pre v suf, f = pre +:+ v +:+ suf ->
                                ~ casing_variant v "it is correct") ->
             _is_halted f = false) /\
  _is_halted "the answer is correctish" = false.
Proof.
  assert (forall v, lower v = "it is correct" <-> casing_variant v "it is correct")
    as Hvariant by (intros v; by apply lower_casing_variant).
  split; [exact is_halted_occurs|].
  split.
  { intros pre v suf Hv%Hvariant. apply is_halted_occurs.
    exists (lower pre), (lower suf). by rewrite !lower_app, Hv. }
  do 3 (split; [reflexivity|]).
  split; [|reflexivity].
  intros f Hnone. apply contains_false. intros (pre & suf & H).
  apply lower_app_inv in H as (x & y & -> & _ & H).
  apply lower_app_inv in H as (v & z & -> & Hv%Hvariant & _).
  exact (Hnone x v z eq_refl Hv).
Qed.

Lemma is_halted_iff_marker_witness :
  _is_halted ("Yes, " +:+ "It Is Correct" +:+ "!") = true.
Proof.
  apply (proj1 (proj2 is_halted_iff_marker) "Yes, " "It Is Correct" "!").
  simpl. unfold cased_as. repeat split; first [by left | right; by vm_compute].
Defined.

(** C8. Text added after or before halting feedback never turns the test
    off. *)
Theorem is_halted_monotone_concat (f g : string) :
  _is_halted f = true ->
  _is_halted (f +:+ g) = true /\ _is_halted (g +:+ f) = true.
Proof.
  rewrite !is_halted_occurs, !lower_app.
  intros H. split; [by apply occurs_app_r | by apply occurs_app_l].
Qed.

Lemma is_halted_monotone_concat_witness :
  _is_halted ("It is correct." +:+ " But wait") = true /\
  _is_halted (" But wait" +:+ "It is correct.") = true.
Proof. exact (is_halted_monotone_concat "It is correct." " But wait" eq_refl). Defined.

(** C9. The test is plain substring search with no word boundary: in
    ["edit is correct"] and ["audit is correct"] the marker occurs at one
    place only, in the middle of the words "edit" and "audit", and the
    test is true on both. *)
Theorem is_halted_inside_word :
  _is_halted "edit is correct" = true /\
  _is_halted "audit is correct" = true /\
  (forall pre suf, lower "edit is correct" = pre +:+ "it is correct" +:+ suf ->
                   pre = "ed" /\ suf = EmptyString) /\
  (forall pre suf, lower "audit is correct" = pre +:+ "it is correct" +:+ suf ->
                   pre = "aud" /\ suf = EmptyString).
Proof.
  do 2 (split; [reflexivity|]).
  split; intros pre suf H; apply (f_equal String.length) in H as Hlen;
    rewrite !length_app in Hlen; simpl in Hlen.
  - destruct pre as [|a [|b [|c pre]]]; vm_compute in H; try discriminate.
    + destruct suf; [|simpl in Hlen; lia]. by injection H as <- <-.
    + simpl in Hlen; lia.
  - destruct pre as [|a [|b [|c [|d pre]]]]; vm_compute in H; try discriminate.
    + destruct suf; [|simpl in Hlen; lia]. by injection H as <- <- <-.
    + simpl in Hlen; lia.
Qed.

Lemma is_halted_inside_word_witness :
  lower "edit is correct" = "ed" +:+ "it is correct" +:+ EmptyString /\
  ("ed" = "ed" /\ EmptyString = EmptyString).
Proof.
  split; [reflexivity|].
  exact (proj1 (proj2 (proj2 is_halted_inside_word)) "ed" EmptyString eq_refl).
Defined.

End Halting.

(** * [strip] removes the white space at both ends *)

Module StripFacts.
Import PyStr PyStrFacts.

Lemma lstrip_split (s : string) :
  exists l, s = l +:+ lstrip s /\ all_space l = true.
Proof.
  induction s as [|c s (l & Hl & Hsp)]; [by exists EmptyString|].
  simpl. destruct (is_space c) eqn:Hc.
  - exists (String c l). rewrite app_cons, <- Hl. simpl. by rewrite Hc, Hsp.
  - by exists EmptyString.
Qed.

Lemma lstrip_head (s : string) (c : ascii) :
  head_char (lstrip s) = Some c -> is_space c = false.
Proof.
  induction s as [|d s IH]; simpl; [done|].
  destruct (is_space d) eqn:Hd; [done|]. simpl. by intros [= <-].
Qed.

Lemma rstrip_split (s : string) :
  exists t, s = rstrip s +:+ t /\ all_space t = true.
Proof.
  induction s as [|c s (t & Ht & Hsp)]; [by exists EmptyString|].
  simpl. destruct (rstrip s) as [|d r] eqn:Hr.
  - rewrite app_nil_l in Ht. subst t. destruct (is_space c) eqn:Hc.
    + exists (String c s). simpl. by rewrite Hc, Hsp.
    + by exists s.
  - exists t. by rewrite app_cons, <- Ht.
Qed.

Lemma rstrip_last (s : string) (c : ascii) :
  last_char (rstrip s) = Some c -> is_space c = false.
Proof.
  induction s as [|d s IH]; simpl; [done|].
  destruct (rstrip s) as [|e r] eqn:Hr.
  - destruct (is_space d) eqn:Hd; simpl; [done|]. by intros [= <-].
  - exact IH.
Qed.

Lemma rstrip_head (s : string) (c : ascii) :
  head_char (rstrip s) = Some c -> head_char s = Some c.
Proof.
  destruct s as [|d s]; simpl; [done|].
  destruct (rstrip s); [destruct (is_space d)|]; simpl; done.
Qed.

Lemma strip_trimmed (s : string) : trimmed (strip s).
Proof.
  split; intros c H.
  - apply rstrip_head in H. by apply lstrip_head in H.
  - by apply rstrip_last in H.
Qed.

(** [strip] cuts a run of white space off each end and nothing else. *)
Lemma strip_split (s : string) :
  exists l t, s = l +:+ strip s +:+ t /\ all_space l = true /\ all_space t = true.
Proof.
  destruct (lstrip_split s) as (l & Hl & Hlsp).
  destruct (rstrip_split (lstrip s)) as (t & Ht & Htsp).
  exists l, t. unfold strip. by rewrite <- Ht.
Qed.

End StripFacts.

(** * The model callers *)

Section ModelCallers.
Import PyStr StripFacts.
Variable format_template : string -> list (string * string) -> outcome string.
Variable llm : list event -> string -> outcome content.
Variables agent_template feedback_template refine_template : string.

Local Abbreviation build_agent := (_build_agent_prompt format_template agent_template).
Local Abbreviation build_feedback := (_build_feedback_prompt format_template feedback_template).
Local Abbreviation build_refine := (_build_refine_prompt format_template refine_template).
Local Abbreviation prompt_agent := (_prompt_agent format_template llm agent_template).
Local Abbreviation prompt_feedback := (_prompt_feedback format_template llm feedback_template).
Local Abbreviation prompt_refine := (_prompt_refine format_template llm refine_template).
Local Abbreviation call := (model_call llm).

Lemma model_call_reply (p r : string) (log : list event) :
  llm log p = Return (ContentStr r) ->
  call (Return p) log = (Return (strip r), log ++ [EvLlm p]).
Proof.
  intros H. unfold model_call, bind, lift, invoke_llm, perform. by rewrite H.
Qed.

Lemma model_call_log (p : string) (log : list event) :
  snd (call (Return p) log) = log ++ [EvLlm p].
Proof.
  unfold model_call, bind, lift, invoke_llm, perform.
  destruct (llm log p) as [[r|]|e]; reflexivity.
Qed.

Lemma model_call_unbuilt (e : py_exception) (log : list event) :
  call (Raise e) log = (Raise e, log).
Proof. reflexivity. Qed.

Lemma model_call_returns (built : outcome string) (log : list event) (out : string) :
  fst (call built log) = Return out ->
  exists p r, built = Return p /\ llm log p = Return (ContentStr r) /\
              out = strip r /\ snd (call built log) = log ++ [EvLlm p].
Proof.
  destruct built as [p|e]; [|discriminate].
  unfold model_call, bind, lift, invoke_llm, perform.
  destruct (llm log p) as [[r|]|e] eqn:Hl; simpl; try discriminate.
  intros [= <-]. by exists p, r.
Qed.

(** C6. Whatever prompt was built and whatever text the model replies,
    each caller returns the reply stripped: the reply is white space,
    then the result, then white space, and the result has no white space
    at either end. *)
Theorem prompt_callers_return_stripped_reply
    (question examples solution feedback : string) (prompt : option string)
    (p r : string) (log : list event) :
  llm log p = Return (ContentStr r) ->
  (build_agent question examples prompt = Return p ->
   result_of (prompt_agent question examples prompt) log = Return (strip r)) /\
  (build_feedback examples solution prompt = Return p ->
   result_of (prompt_feedback examples solution prompt) log = Return (strip r)) /\
  (build_refine examples solution feedback prompt = Return p ->
   result_of (prompt_refine examples solution feedback prompt) log
   = Return (strip r)) /\
  trimmed (strip r) /\
  exists l t, r = l +:+ strip r +:+ t /\ all_space l = true /\ all_space t = true.
Proof.
  intros Hllm.
  assert (forall built, built = Return p ->
            result_of (call built) log = Return (strip r)) as Hcall.
  { intros built ->. unfold result_of. by rewrite (model_call_reply p r log Hllm). }
  split; [exact (Hcall _)|]. split; [exact (Hcall _)|]. split; [exact (Hcall _)|].
  split; [apply strip_trimmed | apply strip_split].
Qed.

(** Any value a caller returns is free of white space at both ends. *)
Lemma prompt_callers_result_trimmed
    (question examples solution feedback : string) (prompt : option string)
    (log : list event) (out : string) :
  result_of (prompt_agent question examples prompt) log = Return out \/
  result_of (prompt_feedback examples solution prompt) log = Return out \/
  result_of (prompt_refine examples solution feedback prompt) log = Return out ->
  trimmed out.
Proof.
  intros [H|[H|H]]; apply model_call_returns in H as (p & r & _ & _ & -> & _);
    apply strip_trimmed.
Qed.

Lemma model_call_inv (built : outcome string) (log log' : list event) (out : string) :
  call built log = (Return out, log') ->
  exists p, built = Return p /\ log' = log ++ [EvLlm p].
Proof.
  intros H. assert (fst (call built log) = Return out) as Hf by by rewrite H.
  apply model_call_returns in Hf as (p & r & -> & _ & _ & Hlog).
  exists p. split; [done|]. by rewrite H in Hlog.
Qed.

Local Abbreviation run_three :=
  (three_phases format_template llm agent_template feedback_template refine_template).

(** C7. One invocation of a caller is one call to the model: once the
    prompt is built the log grows by exactly that call, whether the model
    replies with text, with something else, or raises (nothing is
    retried); the same invocation made again calls again (nothing is
    cached); and a completed run of answer, feedback and refinement has
    made exactly three calls. *)
Theorem prompt_callers_call_model_once
    (question examples solution feedback : string) (prompt : option string)
    (log : list event) :
  (forall p, build_agent question examples prompt = Return p ->
     snd (prompt_agent question examples prompt log) = log ++ [EvLlm p]) /\
  (forall p, build_feedback examples solution prompt = Return p ->
     snd (prompt_feedback examples solution prompt log) = log ++ [EvLlm p]) /\
  (forall p, build_refine examples solution feedback prompt = Return p ->
     snd (prompt_refine examples solution feedback prompt log) = log ++ [EvLlm p]) /\
  (forall p r, build_agent question examples prompt = Return p ->
     llm log p = Return (ContentStr r) ->
     snd ((let* _ := prompt_agent question examples prompt in
           prompt_agent question examples prompt) log)
     = log ++ [EvLlm p; EvLlm p]) /\
  (forall out, result_of (run_three question examples) log = Return out ->
     exists p1 p2 p3,
       snd (run_three question examples log) = log ++ [EvLlm p1; EvLlm p2; EvLlm p3]).
Proof.
  assert (forall built p, built = Return p ->
            snd (call built log) = log ++ [EvLlm p]) as Hone
    by (intros built p ->; apply model_call_log).
  split; [intros p; exact (Hone _ p)|].
  split; [intros p; exact (Hone _ p)|].
  split; [intros p; exact (Hone _ p)|].
  split.
  - intros p r Hb Hl.
    change (snd (bind (call (build_agent question examples prompt))
                   (fun _ => call (build_agent question examples prompt)) log)
            = log ++ [EvLlm p; EvLlm p]).
    unfold bind. rewrite Hb, (model_call_reply p r log Hl), model_call_log.
    by rewrite <- app_assoc.
  - intros out H. unfold result_of, three_phases, bind in *.
    change (_prompt_agent format_template llm agent_template question examples None)
      with (call (build_agent question examples None)) in *.
    destruct (call (build_agent question examples None) log)
      as [[sol|e1] log1] eqn:H1; [|discriminate].
    change (_prompt_feedback format_template llm feedback_template examples sol None)
      with (call (build_feedback examples sol None)) in *.
    destruct (call (build_feedback examples sol None) log1)
      as [[fb|e2] log2] eqn:H2; [|discriminate].
    change (_prompt_refine format_template llm refine_template examples sol fb None)
      with (call (build_refine examples sol fb None)) in *.
    destruct (call (build_refine examples sol fb None) log2)
      as [[ref|e3] log3] eqn:H3; [|discriminate].
    apply model_call_inv in H1 as (p1 & _ & ->).
    apply model_call_inv in H2 as (p2 & _ & ->).
    apply model_call_inv in H3 as (p3 & _ & ->).
    exists p1, p2, p3. simpl. by rewrite <- !app_assoc.
Qed.

End ModelCallers.

(** * The listing of [execute_python] *)

Section DictFacts.
Context {V : Type}.
Implicit Types (d : dict V) (k : string) (v : V).

Lemma dict_get_app_notin d d' k :
  k ∉ dict_keys d -> dict_get (d ++ d') k = dict_get d' k.
Proof.
  induction d as [|[k' v'] d IH]; simpl; [done|].
  intros [Hne Hnotin]%not_elem_of_cons.
  destruct (String.eqb_spec k' k); [congruence | by apply IH].
Qed.

Lemma dict_set_notin d k v :
  k ∉ dict_keys d -> dict_set d k v = d ++ [(k, v)].
Proof.
  induction d as [|[k' v'] d IH]; simpl; [done|].
  intros [Hne Hnotin]%not_elem_of_cons.
  destruct (String.eqb_spec k' k); [congruence | by rewrite IH].
Qed.
End DictFacts.

Lemma listed_keys_subset (d : dict py_value) (k : string) :
  k ∈ dict_keys (listed d) -> k ∈ dict_keys d.
Proof.
  unfold dict_keys, listed. rewrite !list_elem_of_In, !in_map_iff.
  intros ([k' v] & <- & [Hin _]%filter_In). by exists (k', v).
Qed.

Lemma listed_app (d d' : dict py_value) : listed (d ++ d') = listed d ++ listed d'.
Proof. apply List.filter_app. Qed.

Lemma listed_sublist (d : dict py_value) : listed d `sublist_of` d.
Proof.
  induction d as [|item d IH]; [constructor|].
  unfold listed in *. simpl. destruct (is_public (fst item)); by constructor.
Qed.

Section ExecutePython.
Import PyStr.
Variable exec : list event -> string -> exec_result.

Lemma for_each_cons {A S} (x : A) (xs : list A) (body : S -> A -> M S) (s : S) :
  for_each (x :: xs) body s = let* s' := body s x in for_each xs body s'.
Proof. reflexivity. Qed.

Lemma public_entry_step (local_vars acc : dict py_value) (k : string)
    (v : py_value) (log : list event) :
  dict_get local_vars k = Some v ->
  public_entry local_vars acc k log
  = (Return (if is_public k then dict_set acc k v else acc), log).
Proof.
  intros Hget. unfold public_entry, is_public, bind, lift, ret, dict_getitem.
  rewrite Hget. by destruct (negb (startswith "__" k)).
Qed.

(** The dict comprehension copies the public entries, in order. *)
Lemma public_variables_listed (local_vars : dict py_value) (log : list event) :
  NoDup (dict_keys local_vars) ->
  public_variables local_vars log = (Return (listed local_vars), log).
Proof.
  intros Hnodup. unfold public_variables.
  enough (forall rest pre, local_vars = pre ++ rest ->
            for_each (dict_keys rest) (public_entry local_vars) (listed pre) log
            = (Return (listed local_vars), log)) as Hloop
    by exact (Hloop local_vars [] eq_refl).
  induction rest as [|[k v] rest IH]; intros pre Hsplit.
  - rewrite app_nil_r in Hsplit. by subst pre.
  - assert (k ∉ dict_keys pre) as Hfresh.
    { subst local_vars. unfold dict_keys in *. rewrite map_app in Hnodup.
      apply NoDup_app in Hnodup as (_ & Hdisj & _).
      intros Hin. apply (Hdisj k Hin). simpl. left. }
    assert (dict_get local_vars k = Some v) as Hget.
    { rewrite Hsplit, (dict_get_app_notin _ _ _ Hfresh). simpl.
      by rewrite String.eqb_refl. }
    assert (local_vars = (pre ++ [(k, v)]) ++ rest) as Hsplit'
      by (by rewrite <- app_assoc).
    specialize (IH (pre ++ [(k, v)]) Hsplit').
    change (dict_keys ((k, v) :: rest)) with (k :: dict_keys rest).
    rewrite for_each_cons. unfold bind.
    rewrite (public_entry_step _ _ _ _ _ Hget).
    rewrite listed_app in IH. unfold listed at 2 in IH. simpl in IH.
    destruct (is_public k).
    + rewrite dict_set_notin; [exact IH|].
      intros Hin. by apply Hfresh, listed_keys_subset.
    + by rewrite app_nil_r in IH.
Qed.

Lemma render_items (shown : dict py_value) (texts : list string) (log : list event) :
  Forall2 (fun item text => format_value (snd item) = Return text) shown texts ->
  list_comp render_item shown log
  = (Return (zip_with (fun item text => fst item +:+ " = " +:+ text) shown texts), log).
Proof.
  induction 1 as [|[k v] text shown texts Hfmt _ IH]; [done|].
  simpl in *. unfold bind, lift, ret in *. by rewrite Hfmt, IH.
Qed.

(** C10. When the executed code completes, the result lists exactly the
    variables whose name does not start with ["__"], each as
    [name = value], joined by [", "]. *)
Theorem execute_python_lists_public_variables
    (input_code : string) (log : list event)
    (local_vars : dict py_value) (texts : list string) :
  exec log (join newline (map strip (split ";" input_code))) = ExecDone local_vars ->
  NoDup (dict_keys local_vars) ->
  Forall2 (fun item text => format_value (snd item) = Return text)
    (listed local_vars) texts ->
  result_of (execute_python exec input_code) log
  = Return (listing (listed local_vars) texts) /\
  (forall name value,
     (name, value) ∈ listed local_vars <->
     (name, value) ∈ local_vars /\ startswith "__" name = false) /\
  listed local_vars `sublist_of` local_vars.
Proof.
  intros Hexec Hnodup Hfmt. split; [|split].
  - unfold result_of, execute_python, bind at 1, perform. rewrite Hexec.
    unfold bind. rewrite public_variables_listed by done.
    unfold dict_items. by rewrite (render_items _ _ _ Hfmt).
  - intros name value. unfold listed, is_public.
    rewrite !list_elem_of_In, filter_In. simpl.
    by rewrite negb_true_iff.
  - apply listed_sublist.
Qed.

End ExecutePython.

(** * Configuration values *)

Lemma truthy_configured (env : gmap string string) (name value : string) :
  configured env name value ->
  truthy (env !! name) = true /\ default EmptyString (env !! name) = value.
Proof. intros [-> Hne]. by destruct value. Qed.

Lemma truthy_unconfigured (env : gmap string string) (name : string) :
  unconfigured env name <-> truthy (env !! name) = false.
Proof.
  unfold unconfigured. destruct (env !! name) as [[|c s]|]; simpl;
    intuition congruence.
Qed.

Lemma configured_or_not (env : gmap string string) (name : string) :
  unconfigured env name \/ exists value, configured env name value.
Proof.
  unfold unconfigured, configured. destruct (env !! name) as [[|c s]|]; eauto.
Qed.

(** * Computations that make no outbound call *)

Lemma silent_ret {A} (a : A) : silent (ret a).
Proof. by intros log. Qed.

Lemma silent_raise {A} (e : py_exception) : silent (raise (A:=A) e).
Proof. by intros log. Qed.

Lemma silent_lift {A} (o : outcome A) : silent (lift o).
Proof. by intros log. Qed.

Lemma silent_bind {A B} (m : M A) (k : A -> M B) :
  silent m -> (forall a, silent (k a)) -> silent (bind m k).
Proof.
  intros Hm Hk log. unfold bind. specialize (Hm log).
  destruct (m log) as [[a|e] log']; simpl in *; subst; [apply Hk | done].
Qed.

Lemma silent_for_each {A S} (xs : list A) (body : S -> A -> M S) (s : S) :
  (forall s x, silent (body s x)) -> silent (for_each xs body s).
Proof.
  intros Hbody. revert s. induction xs as [|x xs IH]; intros s.
  - apply silent_ret.
  - apply silent_bind; [apply Hbody | exact IH].
Qed.

Ltac silence :=
  repeat first
    [ apply silent_ret | apply silent_raise | apply silent_lift
    | apply silent_bind; [|intros ?]
    | apply silent_for_each; intros ? ?
    | match goal with |- silent (if ?b then _ else _) => destruct b end ].

Lemma silent_wolfram_subpod (out : string) (subpod : json) :
  silent (wolfram_subpod out subpod).
Proof. unfold wolfram_subpod. silence. Qed.

Lemma silent_wolfram_pod (out : string) (pod : json) : silent (wolfram_pod out pod).
Proof. unfold wolfram_pod. silence. Qed.

(** * The tools *)

Section Tools.
Import PyStr PyStrFacts.
Variable env : gmap string string.
Variable exec : list event -> string -> exec_result.
Variable requests_get :
  list event -> string -> list (string * string) -> outcome response.
Variable google_results :
  list event -> string -> string -> string -> Z -> outcome (list (dict string)).

Lemma execute_python_raised (input_code : string) (log : list event) (e : raised) :
  exec log (executed_text input_code) = ExecRaised e ->
  execute_python exec input_code log
  = (if exc_is_Exception e then Return (exc_str e) else Raise (External e),
     log ++ [EvExec (executed_text input_code)]).
Proof.
  intros H. unfold execute_python, bind, perform. fold (executed_text input_code).
  rewrite H. by destruct (exc_is_Exception e).
Qed.

Lemma execute_wolfram_unconfigured (query : string) (log : list event) :
  unconfigured env "WOLFRAM_ALPHA_APP_ID" ->
  execute_wolfram env requests_get query log = (Return wolfram_key_missing, log).
Proof.
  intros H%truthy_unconfigured. unfold execute_wolfram. by rewrite H.
Qed.

(** With the app id configured the GET is made, and what follows makes no
    further call. *)
Lemma execute_wolfram_configured (query app_id : string) (log : list event) :
  configured env "WOLFRAM_ALPHA_APP_ID" app_id ->
  exists rest : outcome response -> M string,
    (forall o, silent (rest o)) /\
    (forall r, (status_code r =? 200)%Z = false ->
       rest (Return r) = ret ("Error occurred: " +:+ str_of_int (status_code r))) /\
    (forall e, rest (Raise e) = raise e) /\
    execute_wolfram env requests_get query log
    = rest (requests_get log wolfram_url (wolfram_params query app_id))
        (log ++ [EvHttpGet wolfram_url (wolfram_params query app_id)]).
Proof.
  intros [Ht Hd]%truthy_configured.
  exists (fun o => bind (lift o) (fun response =>
    if (status_code response =? 200)%Z then
      let* result := lift (response_json response) in
      let* found := lift (py_in "queryresult" result) in
      if found then
        let* queryresult := lift (py_getitem result "queryresult") in
        let* pods := lift (py_getitem queryresult "pods") in
        let* pods := lift (py_iter pods) in
        let* output_string := for_each pods wolfram_pod EmptyString in
        ret (strip output_string)
      else ret wolfram_no_results
    else ret ("Error occurred: " +:+ str_of_int (status_code response)))).
  split; [|split; [|split]].
  - intros o. silence.
  - intros r Hr. unfold bind, lift. by rewrite Hr.
  - done.
  - unfold execute_wolfram. rewrite Ht, Hd.
    unfold bind at 1, perform, wolfram_url, wolfram_params.
    change (negb true) with false. cbv beta iota.
    destruct (requests_get log _ _) as [r|e]; reflexivity.
Qed.

Lemma search_google_unconfigured (query : string) (log : list event) :
  unconfigured env "GOOGLE_CSE_ID" \/ unconfigured env "GOOGLE_API_KEY" ->
  search_google env google_results query log = (Return google_key_missing, log).
Proof.
  unfold search_google. intros [H%truthy_unconfigured|H%truthy_unconfigured];
    rewrite H; [done|]. by rewrite orb_true_r.
Qed.

Lemma search_google_configured (query key cse : string) (log : list event) :
  configured env "GOOGLE_API_KEY" key ->
  configured env "GOOGLE_CSE_ID" cse ->
  search_google env google_results query log
  = (match google_results log key cse query 1 with
     | Return results =>
         match last_item results with
         | Return search_result => dict_getitem search_result "snippet"
         | Raise e => Raise e
         end
     | Raise e => Raise e
     end, log ++ [EvSearch key cse query 1]).
Proof.
  intros [Hk Hkd]%truthy_configured [Hc Hcd]%truthy_configured.
  unfold search_google. rewrite Hk, Hc, Hkd, Hcd.
  unfold bind, perform, lift. simpl.
  destruct (google_results log key cse query 1) as [results|e]; [|done].
  by destruct (last_item results).
Qed.

End Tools.

(** * Properties of the tools *)

Section ToolProperties.
Import PyStr PyStrFacts.
Variable env : gmap string string.
Variable exec : list event -> string -> exec_result.
Variable requests_get :
  list event -> string -> list (string * string) -> outcome response.
Variable google_results :
  list event -> string -> string -> string -> Z -> outcome (list (dict string)).

(** C2, as the code has it. The tools turn these failures into text: an
    [Exception] raised by the executed code (its message), a missing app
    id or search key (a fixed message), and an HTTP status other than 200
    (a message with the status). Nothing else is caught: an exception of
    the executed code that is not an [Exception], and whatever the HTTP
    client or the search wrapper raise, reach the caller. *)
Theorem tools_convert_handled_failures (input : string) (log : list event) :
  (forall e, exec log (executed_text input) = ExecRaised e ->
     exc_is_Exception e = true ->
     result_of (execute_python exec input) log = Return (exc_str e)) /\
  (unconfigured env "WOLFRAM_ALPHA_APP_ID" ->
     result_of (execute_wolfram env requests_get input) log
     = Return wolfram_key_missing) /\
  (forall app_id r, configured env "WOLFRAM_ALPHA_APP_ID" app_id ->
     requests_get log wolfram_url (wolfram_params input app_id) = Return r ->
     status_code r <> 200%Z ->
     result_of (execute_wolfram env requests_get input) log
     = Return ("Error occurred: " +:+ str_of_int (status_code r))) /\
  (unconfigured env "GOOGLE_CSE_ID" \/ unconfigured env "GOOGLE_API_KEY" ->
     result_of (search_google env google_results input) log
     = Return google_key_missing) /\
  (forall e, exec log (executed_text input) = ExecRaised e ->
     exc_is_Exception e = false ->
     result_of (execute_python exec input) log = Raise (External e)) /\
  (forall app_id e, configured env "WOLFRAM_ALPHA_APP_ID" app_id ->
     requests_get log wolfram_url (wolfram_params input app_id) = Raise e ->
     result_of (execute_wolfram env requests_get input) log = Raise e) /\
  (forall key cse e, configured env "GOOGLE_API_KEY" key ->
     configured env "GOOGLE_CSE_ID" cse ->
     google_results log key cse input 1 = Raise e ->
     result_of (search_google env google_results input) log = Raise e).
Proof.
  unfold result_of. repeat split.
  - intros e He Hexc. by rewrite (execute_python_raised _ _ _ _ He), Hexc.
  - intros H. by rewrite execute_wolfram_unconfigured.
  - intros app_id r Hconf Hget Hstatus.
    destruct (execute_wolfram_configured env requests_get input app_id log Hconf)
      as (rest & _ & Herr & _ & ->).
    rewrite Hget, Herr; [done|]. by apply Z.eqb_neq.
  - intros H. by rewrite search_google_unconfigured.
  - intros e He Hexc. by rewrite (execute_python_raised _ _ _ _ He), Hexc.
  - intros app_id e Hconf Hget.
    destruct (execute_wolfram_configured env requests_get input app_id log Hconf)
      as (rest & _ & _ & Hraise & ->).
    by rewrite Hget, Hraise.
  - intros key cse e Hk Hc Hres.
    by rewrite (search_google_configured _ _ _ _ _ _ Hk Hc), Hres.
Qed.

(** C3, as the code has it. [execute_wolfram] reads one configuration
    value, [WOLFRAM_ALPHA_APP_ID]. When it is unset or empty the result is
    the fixed message, which contains "not found in environment
    variables", and no HTTP call is made. When it is set, the GET is made,
    once, whatever else the environment holds. *)
Theorem execute_wolfram_needs_app_id (query : string) (log : list event) :
  (unconfigured env "WOLFRAM_ALPHA_APP_ID" ->
     execute_wolfram env requests_get query log = (Return wolfram_key_missing, log)) /\
  occurs "not found in environment variables" wolfram_key_missing /\
  (forall app_id, configured env "WOLFRAM_ALPHA_APP_ID" app_id ->
     snd (execute_wolfram env requests_get query log)
     = log ++ [EvHttpGet wolfram_url (wolfram_params query app_id)]).
Proof.
  split; [apply execute_wolfram_unconfigured|]. split.
  - by apply contains_spec.
  - intros app_id Hconf.
    destruct (execute_wolfram_configured env requests_get query app_id log Hconf)
      as (rest & Hsilent & _ & _ & ->).
    apply Hsilent.
Qed.

(** C4. With the API key and the search-engine id both configured,
    [search_google] asks for one result and returns the snippet of the
    last element of the list it gets, which is the second one when the
    list has two; with either of them missing it returns the fixed
    message and does not search. *)
Theorem search_google_returns_last_snippet (query : string) (log : list event) :
  (forall key cse results last_result snippet,
     configured env "GOOGLE_API_KEY" key ->
     configured env "GOOGLE_CSE_ID" cse ->
     google_results log key cse query 1 = Return results ->
     last results = Some last_result ->
     dict_get last_result "snippet" = Some snippet ->
     search_google env google_results query log
     = (Return snippet, log ++ [EvSearch key cse query 1])) /\
  (forall key cse first second s1 s2,
     configured env "GOOGLE_API_KEY" key ->
     configured env "GOOGLE_CSE_ID" cse ->
     google_results log key cse query 1 = Return [first; second] ->
     dict_get first "snippet" = Some s1 ->
     dict_get second "snippet" = Some s2 ->
     result_of (search_google env google_results query) log = Return s2) /\
  (unconfigured env "GOOGLE_CSE_ID" \/ unconfigured env "GOOGLE_API_KEY" ->
     search_google env google_results query log = (Return google_key_missing, log)).
Proof.
  split; [|split].
  - intros key cse results last_result snippet Hk Hc Hres Hlast Hsnip.
    rewrite (search_google_configured _ _ _ _ _ _ Hk Hc), Hres.
    unfold last_item, dict_getitem. by rewrite Hlast, Hsnip.
  - intros key cse first second s1 s2 Hk Hc Hres _ Hsnip. unfold result_of.
    rewrite (search_google_configured _ _ _ _ _ _ Hk Hc), Hres.
    unfold last_item, dict_getitem. simpl. by rewrite Hsnip.
  - apply search_google_unconfigured.
Qed.

(** C5. [execute_python("a = 1*100")] returns ["a = 100"]: the text has
    no separator and comes out of the split, strip and join unchanged, the
    interpreter binds [a] to 100, and the listing of that one variable is
    ["a = 100"]. *)
Theorem execute_python_example (log : list event) :
  exec log "a = 1*100" = ExecDone [("a", VInt 100)] ->
  executed_text "a = 1*100" = "a = 1*100" /\
  execute_python exec "a = 1*100" log
  = (Return "a = 100", log ++ [EvExec "a = 1*100"]).
Proof.
  intros Hexec. split; [reflexivity|].
  unfold execute_python, bind at 1, perform.
  change (join newline (map strip (split ";" "a = 1*100"))) with "a = 1*100".
  by rewrite Hexec.
Qed.

End ToolProperties.

(** * The properties at concrete inputs *)

Lemma configured_env_wolfram : configured env_wolfram "WOLFRAM_ALPHA_APP_ID" "DEMO".
Proof. split; [reflexivity | discriminate]. Defined.

Lemma configured_env_google_key : configured env_google "GOOGLE_API_KEY" "key".
Proof. split; [reflexivity | discriminate]. Defined.

Lemma configured_env_google_id : configured env_google "GOOGLE_CSE_ID" "cx".
Proof. split; [reflexivity | discriminate]. Defined.

(** C2 fails as stated: each tool lets an exception through. The executed
    code raises [SystemExit]; the engine answers 200 with a [queryresult]
    that has no [pods]; the search has no hit, so the one element returned
    has no [snippet]. *)
Lemma tools_can_raise :
  result_of (execute_python exec_with_exit "raise SystemExit") []
  = Raise (External (Raised false EmptyString)) /\
  result_of (execute_wolfram env_wolfram http_no_pods "zzz") []
  = Raise (KeyError "pods") /\
  result_of (search_google env_google search_no_hit "zzz") []
  = Raise (KeyError "snippet").
Proof. repeat split; vm_compute; reflexivity. Qed.

Lemma tools_convert_handled_failures_witness :
  result_of (execute_wolfram env_wolfram http_unavailable "2+2") []
  = Return "Error occurred: 503".
Proof.
  apply (proj1 (proj2 (proj2
    (tools_convert_handled_failures env_wolfram RefExec.exec http_unavailable
       search_no_hit "2+2" []))) "DEMO" (Response 503 (Raise (External (Raised true "Expecting value"))))).
  - exact configured_env_wolfram.
  - reflexivity.
  - simpl. lia.
Defined.

(** C3 fails as stated: with the app id as the only variable of the
    environment the query is sent, so no second value is required; there
    are no two variables whose absence each gives the message. *)
Lemma execute_wolfram_reads_one_value :
  dom env_wolfram = {[ "WOLFRAM_ALPHA_APP_ID" ]} /\
  execute_wolfram env_wolfram http_answer "2+2" []
  = (Return ("Result:" +:+ newline +:+ "4"),
     [EvHttpGet wolfram_url (wolfram_params "2+2" "DEMO")]) /\
  ~ exists name1 name2, name1 <> name2 /\
      forall env requests_get query log,
        env !! name1 = None \/ env !! name2 = None ->
        execute_wolfram env requests_get query log
        = (Return wolfram_key_missing, log).
Proof.
  split; [apply dom_singleton_L|]. split; [vm_compute; reflexivity|].
  intros (name1 & name2 & Hne & H).
  assert (exists name, (name = name1 \/ name = name2) /\
                       name <> "WOLFRAM_ALPHA_APP_ID") as (name & Hname & Hother).
  { destruct (decide (name1 = "WOLFRAM_ALPHA_APP_ID")) as [->|Hn].
    - exists name2. split; [by right | congruence].
    - exists name1. split; [by left | done]. }
  assert (env_wolfram !! name = None) as Hunset
    by (by apply lookup_singleton_ne).
  assert (env_wolfram !! name1 = None \/ env_wolfram !! name2 = None) as Habsent
    by (destruct Hname as [<-|<-]; [by left | by right]).
  specialize (H env_wolfram http_answer "2+2" [] Habsent).
  vm_compute in H. discriminate H.
Qed.

Lemma execute_wolfram_needs_app_id_witness :
  execute_wolfram ∅ http_answer "2+2" [] = (Return wolfram_key_missing, []) /\
  snd (execute_wolfram env_wolfram http_answer "2+2" [])
  = [EvHttpGet wolfram_url (wolfram_params "2+2" "DEMO")].
Proof.
  split.
  - apply (proj1 (execute_wolfram_needs_app_id ∅ http_answer "2+2" [])).
    left. reflexivity.
  - apply (proj2 (proj2 (execute_wolfram_needs_app_id env_wolfram http_answer "2+2" []))).
    exact configured_env_wolfram.
Defined.

Lemma search_google_returns_last_snippet_witness :
  search_google env_google search_two_hits "rocq" []
  = (Return "second", [EvSearch "key" "cx" "rocq" 1]) /\
  search_google env_google_empty_id search_two_hits "rocq" []
  = (Return google_key_missing, []).
Proof.
  split.
  - apply (proj1 (search_google_returns_last_snippet env_google search_two_hits "rocq" [])
             "key" "cx"
             [[("title", "A"); ("link", "http://a"); ("snippet", "first")];
              [("title", "B"); ("link", "http://b"); ("snippet", "second")]]
             [("title", "B"); ("link", "http://b"); ("snippet", "second")]).
    + exact configured_env_google_key.
    + exact configured_env_google_id.
    + reflexivity.
    + reflexivity.
    + reflexivity.
  - apply (proj2 (proj2 (search_google_returns_last_snippet env_google_empty_id
                           search_two_hits "rocq" []))).
    left. right. reflexivity.
Defined.

Lemma execute_python_example_witness :
  execute_python RefExec.exec "a = 1*100" [] = (Return "a = 100", [EvExec "a = 1*100"]).
Proof.
  exact (proj2 (execute_python_example RefExec.exec [] eq_refl)).
Defined.

Lemma execute_python_lists_public_variables_witness :
  result_of (execute_python RefExec.exec "__k = 50; a = 2*__k ;b = a - 1") []
  = Return "a = 100, b = 99".
Proof.
  apply (proj1 (execute_python_lists_public_variables RefExec.exec
    "__k = 50; a = 2*__k ;b = a - 1" []
    [("__k", VInt 50); ("a", VInt 100); ("b", VInt 99)] ["100"; "99"]
    eq_refl
    ltac:(by apply (bool_decide_unpack _))
    ltac:(repeat constructor))).
Defined.

Lemma prompt_callers_return_stripped_reply_witness :
  result_of (_prompt_agent template_as_is llm_padded "Q: {question}" "2+2?" EmptyString None) []
  = Return "42" /\
  result_of (_prompt_feedback template_as_is llm_padded "F: {solution}" EmptyString "4" None) []
  = Return "42" /\
  result_of (_prompt_refine template_as_is llm_padded "R: {feedback}" EmptyString "4" "ok" None) []
  = Return "42".
Proof.
  split; [|split].
  - exact (proj1 (prompt_callers_return_stripped_reply template_as_is llm_padded
      "Q: {question}" EmptyString EmptyString "2+2?" EmptyString EmptyString EmptyString None "Q: {question}" "  42 " [] eq_refl)
      eq_refl).
  - exact (proj1 (proj2 (prompt_callers_return_stripped_reply template_as_is llm_padded
      EmptyString "F: {solution}" EmptyString EmptyString EmptyString "4" EmptyString None "F: {solution}" "  42 " [] eq_refl))
      eq_refl).
  - exact (proj1 (proj2 (proj2 (prompt_callers_return_stripped_reply template_as_is
      llm_padded EmptyString EmptyString "R: {feedback}" EmptyString EmptyString "4" "ok" None "R: {feedback}" "  42 " []
      eq_refl))) eq_refl).
Defined.

Lemma prompt_callers_call_model_once_witness :
  snd (_prompt_agent template_as_is llm_padded "Q" "2+2?" EmptyString None []) = [EvLlm "Q"] /\
  exists p1 p2 p3,
    snd (three_phases template_as_is llm_padded "Q" "F" "R" "2+2?" EmptyString [])
    = [EvLlm p1; EvLlm p2; EvLlm p3].
Proof.
  pose proof (prompt_callers_call_model_once template_as_is llm_padded "Q" "F" "R"
                "2+2?" EmptyString EmptyString EmptyString None []) as (Hagent & _ & _ & _ & Hthree).
  split.
  - exact (Hagent "Q" eq_refl).
  - exact (Hthree "42" eq_refl).
Defined.

(** * Further facts about the string primitives *)

Module TextFacts.
Import PyStr PyStrFacts StripFacts.

Lemma lower_length (s : string) : String.length (lower s) = String.length s.
Proof. induction s as [|c s IH]; simpl; congruence. Qed.

Lemma lower_char_idem (c : ascii) : lower_char (lower_char c) = lower_char c.
Proof. by destruct c as [[] [] [] [] [] [] [] []]. Qed.

Lemma lower_idem (s : string) : lower (lower s) = lower s.
Proof. induction s as [|c s IH]; simpl; [done|]. by rewrite lower_char_idem, IH. Qed.

Lemma is_space_lower_char (c : ascii) : is_space (lower_char c) = is_space c.
Proof. by destruct c as [[] [] [] [] [] [] [] []]. Qed.

Lemma all_space_lower (s : string) : all_space (lower s) = all_space s.
Proof.
  induction s as [|c s IH]; simpl; [done|]. by rewrite is_space_lower_char, IH.
Qed.

Lemma all_space_app (s t : string) :
  all_space (s +:+ t) = all_space s && all_space t.
Proof.
  induction s as [|c s IH]; [done|].
  rewrite app_cons. simpl. by rewrite IH, andb_assoc.
Qed.

Lemma all_space_last (s : string) (c : ascii) :
  all_space s = true -> last_char s = Some c -> is_space c = true.
Proof.
  induction s as [|d s IH]; simpl; [done|].
  intros [Hd Hs]%andb_true_iff. destruct s; [by intros [= <-] | by apply IH].
Qed.

(** An occurrence of a text that starts with a visible character does not
    start in white space put before. *)
Lemma occurs_trim_left (sub l m : string) (h : ascii) :
  all_space l = true -> head_char sub = Some h -> is_space h = false ->
  occurs sub (l +:+ m) -> occurs sub m.
Proof.
  intros Hl Hh Hvis. induction l as [|c l IH]; [done|].
  simpl in Hl. apply andb_true_iff in Hl as [Hc Hl].
  intros (pre & suf & H). rewrite app_cons in H. destruct pre as [|d pre].
  - rewrite app_nil_l in H. destruct sub as [|h' sub]; [done|].
    rewrite app_cons in H. simpl in Hh. injection H as -> _. congruence.
  - rewrite app_cons in H. injection H as _ H. apply (IH Hl). by exists pre, suf.
Qed.

(** A text that ends with a visible character and starts where [m] starts
    ends inside [m], not in the white space put after. *)
Lemma prefix_within (sub suf m t : string) (z : ascii) :
  all_space t = true -> last_char sub = Some z -> is_space z = false ->
  sub +:+ suf = m +:+ t -> exists e, m = sub +:+ e.
Proof.
  intros Ht Hz Hvis. revert m.
  induction sub as [|a sub IH]; intros m H; [done|].
  rewrite app_cons in H. destruct m as [|b m].
  - rewrite app_nil_l in H. subst t.
    assert (all_space (String a sub) = true) as Hsub.
    { change (String a (sub +:+ suf)) with (String a sub +:+ suf) in Ht.
      rewrite all_space_app in Ht. by apply andb_true_iff in Ht as [? _]. }
    pose proof (all_space_last _ _ Hsub Hz). congruence.
  - rewrite app_cons in H. injection H as -> H. destruct sub as [|a' sub].
    + by exists m.
    + destruct (IH Hz m H) as [e ->]. by exists e.
Qed.

Lemma occurs_trim_right (sub m t : string) (z : ascii) :
  all_space t = true -> last_char sub = Some z -> is_space z = false ->
  occurs sub (m +:+ t) -> occurs sub m.
Proof.
  intros Ht Hz Hvis. induction m as [|c m IH]; intros (pre & suf & H).
  - rewrite app_nil_l in H. subst t. rewrite !all_space_app in Ht.
    apply andb_true_iff in Ht as [_ [Hsub _]%andb_true_iff].
    pose proof (all_space_last _ _ Hsub Hz). congruence.
  - rewrite app_cons in H. destruct pre as [|d pre].
    + rewrite app_nil_l in H.
      destruct (prefix_within sub suf (String c m) t z Ht Hz Hvis) as [e He];
        [done|]. exists EmptyString, e. by rewrite app_nil_l.
    + rewrite app_cons in H. injection H as _ H.
      destruct IH as (pre' & suf' & ->); [by exists pre, suf|].
      by exists (String c pre'), suf'.
Qed.

Lemma lstrip_all_space (s : string) : all_space s = true -> lstrip s = EmptyString.
Proof.
  induction s as [|c s IH]; simpl; [done|].
  intros [-> Hs]%andb_true_iff. by apply IH.
Qed.

Lemma strip_empty_iff (s : string) : strip s = EmptyString <-> all_space s = true.
Proof.
  split.
  - intros H. destruct (strip_split s) as (l & t & Hs & Hl & Ht).
    rewrite H, app_nil_l in Hs. rewrite Hs, all_space_app. by rewrite Hl, Ht.
  - intros H. unfold strip. by rewrite lstrip_all_space.
Qed.

Lemma rstrip_fixed (s : string) :
  (forall c, last_char s = Some c -> is_space c = false) -> rstrip s = s.
Proof.
  induction s as [|c s IH]; [done|]. intros Hlast. simpl.
  destruct s as [|d s].
  - simpl. by rewrite (Hlast c eq_refl).
  - rewrite IH; [done|]. intros z Hz. by apply Hlast.
Qed.

Lemma strip_fixed (s : string) : trimmed s -> strip s = s.
Proof.
  intros [Hhead Hlast]. unfold strip.
  assert (lstrip s = s) as ->; [|by apply rstrip_fixed].
  destruct s as [|c s]; [done|]. simpl. by rewrite (Hhead c eq_refl).
Qed.

Lemma mem_char_app (c : ascii) (s t : string) :
  mem_char c (s +:+ t) = mem_char c s || mem_char c t.
Proof.
  induction s as [|d s IH]; [done|].
  rewrite app_cons. simpl. by rewrite IH, orb_assoc.
Qed.

Lemma mem_char_strip (c : ascii) (s : string) :
  mem_char c s = false -> mem_char c (strip s) = false.
Proof.
  destruct (strip_split s) as (l & t & Hs & _ & _). rewrite Hs at 1.
  rewrite !mem_char_app. intros H.
  apply orb_false_iff in H as [_ H]. by apply orb_false_iff in H as [? _].
Qed.

(** No piece of a split holds the separator, and a piece holds only
    characters of the text. *)
Lemma split_pieces (sep : ascii) (s : string) :
  Forall (fun piece => mem_char sep piece = false /\
                       forall c, mem_char c s = false -> mem_char c piece = false)
    (split sep s).
Proof.
  induction s as [|d s IH]; simpl.
  - by repeat constructor.
  - destruct (Ascii.eqb_spec d sep) as [->|Hne].
    + constructor; [done|]. eapply Forall_impl; [exact IH|].
      intros piece [Hsep Hsub]. split; [done|].
      intros c [_ Hc]%orb_false_iff. by apply Hsub.
    + destruct (split_cons sep s) as (piece & rest & Hs). rewrite Hs in *.
      apply Forall_cons in IH as [[Hsep Hsub] IH]. constructor.
      * split.
        -- simpl. rewrite Hsep, orb_false_r. by apply Ascii.eqb_neq.
        -- intros c [Hd Hc]%orb_false_iff. simpl. by rewrite Hd, (Hsub c Hc).
      * eapply Forall_impl; [exact IH|]. intros p [Hp Hsubp]. split; [done|].
        intros c [_ Hc]%orb_false_iff. by apply Hsubp.
Qed.

Lemma split_no_sep (sep : ascii) (s : string) :
  mem_char sep s = false -> split sep s = [s].
Proof.
  induction s as [|d s IH]; [done|]. simpl.
  intros [Hd Hs]%orb_false_iff. rewrite Hd, (IH Hs). done.
Qed.

Lemma split_app_sep (sep : ascii) (a b : string) :
  mem_char sep a = false ->
  split sep (a +:+ String sep b) = a :: split sep b.
Proof.
  induction a as [|d a IH]; intros Ha.
  - rewrite app_nil_l. simpl. by rewrite Ascii.eqb_refl.
  - simpl in Ha. apply orb_false_iff in Ha as [Hd Ha].
    rewrite app_cons. simpl. by rewrite Hd, (IH Ha).
Qed.

(** Splitting what was joined gives the pieces back, when no piece holds
    the separator. *)
Lemma split_join (sep : ascii) (pieces : list string) :
  pieces <> [] -> Forall (fun piece => mem_char sep piece = false) pieces ->
  split sep (join (String sep EmptyString) pieces) = pieces.
Proof.
  induction pieces as [|x [|y rest] IH]; intros Hne Hall; [done|..].
  - simpl. apply split_no_sep. by apply Forall_cons in Hall as [? _].
  - apply Forall_cons in Hall as [Hx Hall].
    change (join (String sep EmptyString) (x :: y :: rest))
      with (x +:+ String sep (join (String sep EmptyString) (y :: rest))).
    rewrite (split_app_sep _ _ _ Hx), IH; done.
Qed.

Lemma mem_char_join (c : ascii) (sep : string) (pieces : list string) :
  mem_char c sep = false ->
  Forall (fun piece => mem_char c piece = false) pieces ->
  mem_char c (join sep pieces) = false.
Proof.
  intros Hsep. induction pieces as [|x [|y rest] IH]; intros Hall; [done|..].
  - by apply Forall_cons in Hall as [? _].
  - apply Forall_cons in Hall as [Hx Hall].
    change (join sep (x :: y :: rest)) with (x +:+ sep +:+ join sep (y :: rest)).
    by rewrite !mem_char_app, Hx, Hsep, IH.
Qed.

End TextFacts.

(** * More on the halting test *)

Section HaltingMore.
Import PyStr PyStrFacts StripFacts TextFacts.

(** X1. Feedback shorter than the thirteen characters of the marker, the
    empty feedback included, never halts. *)
Theorem is_halted_short_feedback (f : string) :
  (String.length f < String.length acceptance_marker)%nat -> _is_halted f = false.
Proof.
  intros Hshort. apply contains_false. intros (pre & suf & H).
  apply (f_equal String.length) in H.
  rewrite lower_length, !length_app in H. lia.
Qed.

Lemma is_halted_short_feedback_witness :
  _is_halted "is correct" = false /\ _is_halted EmptyString = false.
Proof.
  split; apply is_halted_short_feedback; simpl; lia.
Defined.

(** X2. The test does not see the case of letters: lowering the feedback
    first does not change its answer. *)
Theorem is_halted_of_lowered (f : string) : _is_halted (lower f) = _is_halted f.
Proof. unfold _is_halted. by rewrite lower_idem. Qed.

Lemma occurs_marker_strip (f : string) :
  occurs acceptance_marker (lower (strip f)) <-> occurs acceptance_marker (lower f).
Proof.
  destruct (strip_split f) as (l & t & Hf & Hl & Ht).
  rewrite Hf at 2. rewrite !lower_app. split.
  - intros H. by apply occurs_app_l, occurs_app_r.
  - intros H.
    apply (occurs_trim_left _ _ _ "i"%char) in H;
      [|by rewrite all_space_lower|done..].
    apply (occurs_trim_right _ _ _ "t"%char) in H;
      [done|by rewrite all_space_lower|done..].
Qed.

Variable format_template : string -> list (string * string) -> outcome string.
Variable llm : list event -> string -> outcome content.
Variable feedback_template : string.

(** X3. Stripping does not change the answer of the test, so the test on
    the feedback [_prompt_feedback] returns is the test on the text the
    model sent. *)
Theorem is_halted_of_stripped_feedback :
  (forall f, _is_halted (strip f) = _is_halted f) /\
  (forall examples solution prompt log feedback,
     result_of (_prompt_feedback format_template llm feedback_template
                  examples solution prompt) log = Return feedback ->
     exists p r, llm log p = Return (ContentStr r) /\
                 feedback = strip r /\ _is_halted feedback = _is_halted r).
Proof.
  assert (forall f, _is_halted (strip f) = _is_halted f) as Hstrip.
  { intros f. apply Bool.eq_iff_eq_true.
    rewrite !is_halted_occurs. apply occurs_marker_strip. }
  split; [exact Hstrip|].
  intros examples solution prompt log feedback H.
  apply (model_call_returns llm) in H as (p & r & _ & Hr & -> & _).
  exists p, r. by rewrite Hstrip.
Qed.

End HaltingMore.

Lemma is_halted_of_stripped_feedback_witness :
  exists p r, llm_padded [] p = Return (ContentStr r) /\
              "42" = PyStr.strip r /\ _is_halted "42" = _is_halted r.
Proof.
  exact (proj2 (is_halted_of_stripped_feedback template_as_is llm_padded "F: {solution}")
           "Q: 1+1 A: 2" "4" None [] "42" eq_refl).
Defined.

(** * More on the model callers *)

Section ModelCallersMore.
Import PyStr PyStrFacts StripFacts TextFacts.
Variable format_template : string -> list (string * string) -> outcome string.
Variable llm : list event -> string -> outcome content.
Variables agent_template feedback_template refine_template : string.

Local Abbreviation build_agent := (_build_agent_prompt format_template agent_template).
Local Abbreviation build_feedback := (_build_feedback_prompt format_template feedback_template).
Local Abbreviation build_refine := (_build_refine_prompt format_template refine_template).
Local Abbreviation prompt_agent := (_prompt_agent format_template llm agent_template).
Local Abbreviation prompt_feedback := (_prompt_feedback format_template llm feedback_template).
Local Abbreviation prompt_refine := (_prompt_refine format_template llm refine_template).

Lemma model_call_outcome (built : outcome string) (log : list event) :
  model_call llm built log = caller_outcome llm built log.
Proof.
  destruct built as [p|e]; [|done].
  unfold model_call, caller_outcome, bind, lift, invoke_llm, perform.
  by destruct (llm log p) as [[r|]|e].
Qed.

(** X4. How each caller ends. An error of the template formatting is
    raised before the model is called; otherwise the model is called once
    and the caller raises the model's error, raises [AssertionError] on a
    content that is not text, or returns the stripped text. Nothing is
    caught and nothing is retried. *)
Theorem prompt_callers_outcomes
    (question examples solution feedback : string) (prompt : option string)
    (log : list event) :
  prompt_agent question examples prompt log
  = caller_outcome llm (build_agent question examples prompt) log /\
  prompt_feedback examples solution prompt log
  = caller_outcome llm (build_feedback examples solution prompt) log /\
  prompt_refine examples solution feedback prompt log
  = caller_outcome llm (build_refine examples solution feedback prompt) log.
Proof. repeat split; apply model_call_outcome. Qed.

Lemma model_call_blank (p r : string) (log : list event) :
  llm log p = Return (ContentStr r) ->
  (result_of (model_call llm (Return p)) log = Return EmptyString
   <-> all_space r = true).
Proof.
  intros H. unfold result_of. rewrite model_call_outcome. simpl. rewrite H.
  rewrite <- strip_empty_iff. simpl. split; [by intros [= ->] | by intros ->].
Qed.

(** X5. A caller returns the empty string exactly when the text the model
    sent is all white space (or empty). *)
Theorem prompt_callers_blank_reply
    (question examples solution feedback : string) (prompt : option string)
    (p r : string) (log : list event) :
  llm log p = Return (ContentStr r) ->
  (build_agent question examples prompt = Return p ->
   (result_of (prompt_agent question examples prompt) log = Return EmptyString
    <-> all_space r = true)) /\
  (build_feedback examples solution prompt = Return p ->
   (result_of (prompt_feedback examples solution prompt) log = Return EmptyString
    <-> all_space r = true)) /\
  (build_refine examples solution feedback prompt = Return p ->
   (result_of (prompt_refine examples solution feedback prompt) log
    = Return EmptyString <-> all_space r = true)).
Proof.
  intros Hllm.
  assert (forall built, built = Return p ->
            (result_of (model_call llm built) log = Return EmptyString
             <-> all_space r = true)) as Hcall
    by (intros built ->; by apply model_call_blank).
  split; [exact (Hcall _)|]. split; exact (Hcall _).
Qed.

(** What a caller returns is a fixed point of [strip]: stripping it
    again changes nothing. *)
Theorem prompt_callers_result_stripped
    (question examples solution feedback : string) (prompt : option string)
    (log : list event) (out : string) :
  result_of (prompt_agent question examples prompt) log = Return out \/
  result_of (prompt_feedback examples solution prompt) log = Return out \/
  result_of (prompt_refine examples solution feedback prompt) log = Return out ->
  strip out = out.
Proof.
  intros [H|[H|H]];
    apply (model_call_returns llm) in H as (p & r & _ & _ & -> & _);
    apply strip_fixed, strip_trimmed.
Qed.

End ModelCallersMore.

Lemma prompt_callers_blank_reply_witness :
  result_of (_prompt_agent template_as_is llm_blank "Q: {question}" "2+2?" "none" None) []
  = Return EmptyString.
Proof.
  apply (proj1 (prompt_callers_blank_reply template_as_is llm_blank
           "Q: {question}" "F" "R" "2+2?" "none" "4" "ok" None
           "Q: {question}" "   " [] eq_refl) eq_refl).
  reflexivity.
Defined.

Lemma prompt_callers_result_stripped_witness : PyStr.strip "42" = "42".
Proof.
  apply (prompt_callers_result_stripped template_as_is llm_padded
           "Q: {question}" "F" "R" "2+2?" "none" "4" "ok" None [] "42").
  left. reflexivity.
Defined.

(** * More on [execute_python] *)

Section ExecutePythonMore.
Import PyStr PyStrFacts StripFacts TextFacts.
Variable exec : list event -> string -> exec_result.

(** X6. The text handed to [exec] never holds a semicolon: every one of
    the input, wherever it stands, has become a line break. *)
Theorem executed_text_no_semicolon (input_code : string) :
  mem_char ";" (executed_text input_code) = false.
Proof.
  unfold executed_text. apply mem_char_join; [done|].
  apply Forall_map. eapply Forall_impl; [apply split_pieces|].
  intros piece [Hsep _]. by apply mem_char_strip.
Qed.

(** X7. For an input without a line break, the lines handed to [exec] are
    the pieces between the semicolons, each stripped: there are as many
    lines as pieces and no line starts or ends with white space. *)
Theorem executed_text_lines (input_code : string) :
  mem_char (chr 10) input_code = false ->
  split (chr 10) (executed_text input_code) = map strip (split ";" input_code) /\
  Forall trimmed (split (chr 10) (executed_text input_code)).
Proof.
  intros Hline.
  assert (split (chr 10) (executed_text input_code)
          = map strip (split ";" input_code)) as Hlines.
  { unfold executed_text. apply split_join.
    - destruct (split_cons ";" input_code) as (piece & rest & ->). done.
    - apply Forall_map. eapply Forall_impl; [apply split_pieces|].
      intros piece [_ Hsub]. by apply mem_char_strip, Hsub. }
  split; [done|]. rewrite Hlines. apply Forall_map, Forall_true.
  intros piece. apply strip_trimmed.
Qed.

Lemma silent_public_variables (local_vars : dict py_value) :
  silent (public_variables local_vars).
Proof. unfold public_variables, public_entry. silence. Qed.

Lemma silent_render_items (shown : dict py_value) :
  silent (list_comp render_item shown).
Proof.
  induction shown as [|[k v] shown IH]; [apply silent_ret|].
  simpl. silence. exact IH.
Qed.

(** X8. Whatever the input and whatever the executed code does,
    [execute_python] runs [exec] once, on the text prepared from the
    input, and makes no other outbound call. *)
Theorem execute_python_runs_exec_once (input_code : string) (log : list event) :
  snd (execute_python exec input_code log)
  = log ++ [EvExec (executed_text input_code)].
Proof.
  unfold execute_python, bind at 1, perform. fold (executed_text input_code).
  destruct (exec log (executed_text input_code)) as [local_vars|e].
  - assert (silent (let* variables_dict := public_variables local_vars in
                    let* parts := list_comp render_item (dict_items variables_dict) in
                    ret (join ", " parts))) as Hsilent.
    { apply silent_bind; [apply silent_public_variables|]. intros variables_dict.
      apply silent_bind; [apply silent_render_items|]. intros parts.
      apply silent_ret. }
    apply Hsilent.
  - by destruct (exc_is_Exception e).
Qed.



Lemma join_nil_inv (sep x : string) (rest : list string) :
  join sep (x :: rest) = EmptyString -> x = EmptyString.
Proof.
  destruct rest as [|y rest]; [done|].
  change (join sep (x :: y :: rest)) with (x +:+ sep +:+ join sep (y :: rest)).
  by destruct x.
Qed.

(** X10. When the code has run, the result is the empty string exactly
    when it left no variable to list (none at all, or only names that
    start with two underscores). *)
Theorem execute_python_empty_result
    (input_code : string) (log : list event)
    (local_vars : dict py_value) (texts : list string) :
  exec log (executed_text input_code) = ExecDone local_vars ->
  NoDup (dict_keys local_vars) ->
  Forall2 (fun item text => format_value (snd item) = Return text)
    (listed local_vars) texts ->
  (result_of (execute_python exec input_code) log = Return EmptyString
   <-> listed local_vars = []).
Proof.
  intros Hexec Hnodup Hfmt.
  unfold result_of, execute_python, bind at 1, perform.
  fold (executed_text input_code). rewrite Hexec.
  unfold bind. rewrite public_variables_listed by done.
  unfold dict_items. rewrite (render_items _ _ _ Hfmt). simpl.
  destruct Hfmt as [|[k v] text shown texts _ _]; [done|].
  split; [|done]. intros [= H]. simpl in H.
  apply join_nil_inv in H. apply (f_equal String.length) in H.
  rewrite !length_app in H. simpl in H. lia.
Qed.

End ExecutePythonMore.

Lemma executed_text_lines_witness :
  PyStr.split (PyStr.chr 10) (executed_text " a = 1 ;  b = a*2;")
  = ["a = 1"; "b = a*2"; EmptyString].
Proof.
  exact (proj1 (executed_text_lines " a = 1 ;  b = a*2;" eq_refl)).
Defined.


Lemma execute_python_empty_result_witness :
  result_of (execute_python RefExec.exec "__a = 1; __b = __a + 1") []
  = Return EmptyString.
Proof.
  apply (execute_python_empty_result RefExec.exec "__a = 1; __b = __a + 1" []
           [("__a", VInt 1); ("__b", VInt 2)] []).
  - reflexivity.
  - by apply (bool_decide_unpack _).
  - constructor.
  - reflexivity.
Defined.

(** * More on [execute_wolfram] and [search_google] *)

Section ToolsMore.
Import PyStr PyStrFacts StripFacts TextFacts.
Variable env : gmap string string.
Variable requests_get :
  list event -> string -> list (string * string) -> outcome response.
Variable google_results :
  list event -> string -> string -> string -> Z -> outcome (list (dict string)).

Lemma execute_wolfram_status_200 (query app_id : string) (r : response)
    (log : list event) :
  configured env "WOLFRAM_ALPHA_APP_ID" app_id ->
  requests_get log wolfram_url (wolfram_params query app_id) = Return r ->
  status_code r = 200%Z ->
  execute_wolfram env requests_get query log
  = wolfram_read (response_json r)
      (log ++ [EvHttpGet wolfram_url (wolfram_params query app_id)]).
Proof.
  intros [Ht Hd]%truthy_configured Hget Hstatus.
  unfold execute_wolfram. rewrite Ht, Hd.
  unfold bind at 1, perform. change (negb true) with false. cbv beta iota.
  unfold wolfram_url, wolfram_params in Hget. rewrite Hget, Hstatus.
  reflexivity.
Qed.

Lemma wolfram_subpods_text (subpods : list json) (plaintexts : list string)
    (out : string) (log : list event) :
  Forall2 (fun subpod plaintext =>
             py_getitem subpod "plaintext" = Return (JString plaintext))
    subpods plaintexts ->
  for_each subpods wolfram_subpod out log
  = (Return (out +:+ text_lines plaintexts), log).
Proof.
  intros H. revert out.
  induction H as [|subpod plaintext subpods plaintexts Hpt _ IH]; intros out.
  - simpl. unfold ret. by rewrite app_nil_r.
  - rewrite for_each_cons. unfold bind at 1, wolfram_subpod, bind, lift, ret.
    rewrite Hpt. simpl py_add_str. cbv beta iota.
    rewrite IH. simpl text_lines. by rewrite !app_assoc.
Qed.

Lemma wolfram_pod_section (j : json) (p : pod) (out : string) (log : list event) :
  is_pod j p -> wolfram_pod out j log = (Return (out +:+ pod_section p), log).
Proof.
  intros [Htitle Hsub]. unfold wolfram_pod, pod_section, bind at 1, lift.
  rewrite Htitle.
  change (json_is_str "Input interpretation" (JString (fst p)))
    with (String.eqb (fst p) "Input interpretation").
  destruct (String.eqb_spec (fst p) "Input interpretation") as [_|Hne];
    cbn [negb].
  - unfold ret. by rewrite app_nil_r.
  - destruct (Hsub Hne) as (subpods & Hsubpods & Hpts).
    unfold bind, lift. simpl py_add_str.
    rewrite Hsubpods. simpl py_iter. cbv iota.
    rewrite (wolfram_subpods_text _ _ _ _ Hpts). by rewrite !app_assoc.
Qed.

Lemma wolfram_pods_sections (pod_jsons : list json) (pods : list pod)
    (out : string) (log : list event) :
  Forall2 is_pod pod_jsons pods ->
  for_each pod_jsons wolfram_pod out log = (Return (out +:+ pod_sections pods), log).
Proof.
  intros H. revert out. induction H as [|j p pod_jsons pods Hp _ IH]; intros out.
  - simpl. unfold ret. by rewrite app_nil_r.
  - rewrite for_each_cons. unfold bind. rewrite (wolfram_pod_section _ _ _ _ Hp).
    rewrite IH. simpl pod_sections. by rewrite app_assoc.
Qed.

(** X11. On a reply of status 200 whose [queryresult] has a list of pods,
    the result is the stripped text of one section per pod, in order:
    the title, a colon and a line break, then each subpod's plaintext on
    a line; pods titled "Input interpretation" give nothing. *)
Theorem execute_wolfram_assembles_pods
    (query app_id : string) (r : response) (log : list event)
    (members : dict json) (queryresult : json)
    (pod_jsons : list json) (pods : list pod) :
  configured env "WOLFRAM_ALPHA_APP_ID" app_id ->
  requests_get log wolfram_url (wolfram_params query app_id) = Return r ->
  status_code r = 200%Z ->
  response_json r = Return (JObject members) ->
  dict_get members "queryresult" = Some queryresult ->
  py_getitem queryresult "pods" = Return (JArray pod_jsons) ->
  Forall2 is_pod pod_jsons pods ->
  result_of (execute_wolfram env requests_get query) log
  = Return (strip (pod_sections pods)).
Proof.
  intros Hconf Hget Hstatus Hbody Hqr Hpods Hshape. unfold result_of.
  rewrite (execute_wolfram_status_200 _ _ _ _ Hconf Hget Hstatus), Hbody.
  unfold wolfram_read, bind, lift. simpl py_in. rewrite Hqr. cbv beta iota.
  unfold py_getitem at 1, dict_getitem. rewrite Hqr, Hpods. simpl py_iter.
  cbv beta iota. rewrite (wolfram_pods_sections _ _ _ _ Hshape).
  by rewrite app_nil_l.
Qed.

(** X12. On a reply of status 200 whose JSON object has no [queryresult]
    member, the result is the fixed "No results found" message; nothing
    is raised. *)
Theorem execute_wolfram_without_queryresult
    (query app_id : string) (r : response) (log : list event) (members : dict json) :
  configured env "WOLFRAM_ALPHA_APP_ID" app_id ->
  requests_get log wolfram_url (wolfram_params query app_id) = Return r ->
  status_code r = 200%Z ->
  response_json r = Return (JObject members) ->
  dict_get members "queryresult" = None ->
  result_of (execute_wolfram env requests_get query) log = Return wolfram_no_results.
Proof.
  intros Hconf Hget Hstatus Hbody Hnone. unfold result_of.
  rewrite (execute_wolfram_status_200 _ _ _ _ Hconf Hget Hstatus), Hbody.
  unfold wolfram_read, bind, lift. simpl py_in. by rewrite Hnone.
Qed.

(** X13. A reply of status 200 that is not of the expected shape makes
    [execute_wolfram] raise: the error of decoding a body that is not
    JSON, [TypeError] on a body that is [null], a boolean or a number, and
    [KeyError] for [pods] when the [queryresult] object has none. *)
Theorem execute_wolfram_malformed_reply
    (query app_id : string) (r : response) (log : list event) :
  configured env "WOLFRAM_ALPHA_APP_ID" app_id ->
  requests_get log wolfram_url (wolfram_params query app_id) = Return r ->
  status_code r = 200%Z ->
  (forall e, response_json r = Raise e ->
     result_of (execute_wolfram env requests_get query) log = Raise e) /\
  (forall body, response_json r = Return body ->
     body = JNull \/ (exists b, body = JBool b) \/ (exists n, body = JNumber n) ->
     result_of (execute_wolfram env requests_get query) log = Raise TypeError) /\
  (forall members fields, response_json r = Return (JObject members) ->
     dict_get members "queryresult" = Some (JObject fields) ->
     dict_get fields "pods" = None ->
     result_of (execute_wolfram env requests_get query) log = Raise (KeyError "pods")).
Proof.
  intros Hconf Hget Hstatus. unfold result_of.
  rewrite (execute_wolfram_status_200 _ _ _ _ Hconf Hget Hstatus).
  split; [|split].
  - by intros e ->.
  - intros body -> [->|[[b ->]|[n ->]]]; reflexivity.
  - intros members fields -> Hqr Hpods.
    unfold wolfram_read, bind, lift. simpl py_in. rewrite Hqr. cbv beta iota.
    unfold py_getitem, dict_getitem. by rewrite Hqr, Hpods.
Qed.

(** X14. With both values configured [search_google] makes one search,
    for one result, whatever comes back; an empty list of results makes it
    raise [IndexError], and a last result without a [snippet] makes it
    raise [KeyError]. *)
Theorem search_google_edge_cases (query key cse : string) (log : list event) :
  configured env "GOOGLE_API_KEY" key ->
  configured env "GOOGLE_CSE_ID" cse ->
  snd (search_google env google_results query log)
  = log ++ [EvSearch key cse query 1] /\
  (google_results log key cse query 1 = Return [] ->
   result_of (search_google env google_results query) log = Raise IndexError) /\
  (forall results last_result,
     google_results log key cse query 1 = Return results ->
     last results = Some last_result ->
     dict_get last_result "snippet" = None ->
     result_of (search_google env google_results query) log
     = Raise (KeyError "snippet")).
Proof.
  intros Hk Hc. unfold result_of.
  rewrite (search_google_configured _ _ _ _ _ _ Hk Hc).
  split; [done|]. split.
  - by intros ->.
  - intros results last_result -> Hlast Hsnip.
    unfold last_item, dict_getitem. by rewrite Hlast, Hsnip.
Qed.

End ToolsMore.

Lemma execute_wolfram_assembles_pods_witness :
  result_of (execute_wolfram env_wolfram http_answer "2+2") []
  = Return (PyStr.strip
              (pod_sections [("Input interpretation", ["2 + 2"]); ("Result", ["4"])])).
Proof.
  eapply (execute_wolfram_assembles_pods env_wolfram http_answer "2+2" "DEMO").
  - exact configured_env_wolfram.
  - reflexivity.
  - reflexivity.
  - reflexivity.
  - reflexivity.
  - reflexivity.
  - repeat first [ constructor | intros _; eexists; split; [reflexivity|] ].
Defined.

Lemma execute_wolfram_without_queryresult_witness :
  result_of (execute_wolfram env_wolfram http_no_queryresult "2+2") []
  = Return wolfram_no_results.
Proof.
  apply (execute_wolfram_without_queryresult env_wolfram http_no_queryresult
           "2+2" "DEMO" (Response 200 (Return (JObject [("error", JString "Invalid appid")])))
           [] [("error", JString "Invalid appid")]).
  - exact configured_env_wolfram.
  - reflexivity.
  - reflexivity.
  - reflexivity.
  - reflexivity.
Defined.

Lemma execute_wolfram_malformed_reply_witness :
  result_of (execute_wolfram env_wolfram http_no_pods "zzz") []
  = Raise (KeyError "pods").
Proof.
  apply (proj2 (proj2 (execute_wolfram_malformed_reply env_wolfram http_no_pods
    "zzz" "DEMO"
    (Response 200 (Return (JObject [("queryresult",
       JObject [("success", JBool false); ("numpods", JNumber "0")])])))
    [] configured_env_wolfram eq_refl eq_refl))
    [("queryresult", JObject [("success", JBool false); ("numpods", JNumber "0")])]
    [("success", JBool false); ("numpods", JNumber "0")]).
  - reflexivity.
  - reflexivity.
  - reflexivity.
Defined.

Lemma search_google_edge_cases_witness :
  result_of (search_google env_google search_nothing "rocq") [] = Raise IndexError /\
  result_of (search_google env_google search_no_hit "rocq") []
  = Raise (KeyError "snippet").
Proof.
  split.
  - apply (proj1 (proj2 (search_google_edge_cases env_google search_nothing
             "rocq" "key" "cx" [] configured_env_google_key configured_env_google_id))).
    reflexivity.
  - apply (proj2 (proj2 (search_google_edge_cases env_google search_no_hit
             "rocq" "key" "cx" [] configured_env_google_key configured_env_google_id))
             [[("Result", "No good Google Search Result was found")]]
             [("Result", "No good Google Search Result was found")]).
    + reflexivity.
    + reflexivity.
    + reflexivity.
Defined.
